(** * download_gsc_data.py: a shallow embedding and its verified properties

    The program authenticates against the Search Console API, sends one
    [searchanalytics.query] request per report over the whole date range,
    reshapes the answer into a pandas DataFrame and writes one CSV file per
    date.  The embedding follows the source function by function:

    - Python exceptions are values of [exn]; a computation is a function
      from the [world] (file system and heap of list objects) to an
      [outcome]: a result or a raised exception, the world afterwards and
      the effects it performed, in order;
    - the libraries the program calls (google-auth, googleapiclient, the
      operating system) are an environment the development is parametric
      in; pandas, [os.path.join] and [datetime] are modelled by the
      functions the program uses;
    - Python lists passed by reference (the [dimensions] argument) live in
      the heap and are named by their location;
    - a [str] is a [string] whose characters are the code points below 256,
      an [int] is a [Z], and the numbers of a response are rationals, which
      the program only carries along. *)

From Stdlib Require Import Ascii String.
From Stdlib Require QArith.
From stdpp Require Import base option list sorting strings gmap.

Local Open Scope Z_scope.

(** ** Exceptions and results *)

(** The exception classes the program distinguishes in its handlers.  All
    of them derive from [Exception]; [FileNotFoundError] derives from
    [OSError]. *)
Inductive exn : Type :=
  | FileNotFoundError
  | OSError
  | HttpError
  | ValueError
  | KeyError
  | TypeError
  | OtherException.

#[global] Instance exn_eq_dec : EqDecision exn.
Proof. solve_decision. Defined.

Inductive result (A : Type) : Type :=
  | Ret (a : A)
  | Raise (e : exn).
Arguments Ret {A} a.
Arguments Raise {A} e.

(** ** Dates: [datetime.datetime.strptime(s, '%Y-%m-%d').date()] and
       [date.strftime('%Y-%m-%d')] *)

Module Datetime.

Record date : Type := Date { year : Z; month : Z; day : Z }.

Definition in_range (lo hi : ascii) (c : ascii) : bool :=
  ((nat_of_ascii lo <=? nat_of_ascii c) && (nat_of_ascii c <=? nat_of_ascii hi))%nat.

(** [\d]: over the code points below 256 the decimal digits are "0".."9". *)
Definition is_digit (c : ascii) : bool := in_range "0" "9" c.

(** [int(c)] of one digit; a space counts for nothing, as in [int(" 5")]. *)
Definition digit_value (c : ascii) : Z :=
  if is_digit c then Z.of_nat (nat_of_ascii c) - 48 else 0.

Definition int_of_digits (l : list ascii) : Z :=
  foldl (fun acc c => 10 * acc + digit_value c) 0 l.

(** One character of a class, then the rest: the ways to match, in the
    order the regular-expression engine tries them. *)
Definition re_class (p : ascii -> bool) (s : list ascii) : list (ascii * list ascii) :=
  match s with
  | c :: r => if p c then [(c, r)] else []
  | [] => []
  end.

Definition re_lit (c : ascii) (s : list ascii) : list (list ascii) :=
  snd <$> re_class (fun x => bool_decide (x = c)) s.

(** Two classes in a row, giving the two-character text matched. *)
Definition re_class2 (p q : ascii -> bool) (s : list ascii)
  : list (Z * list ascii) :=
  '(a, r) ← re_class p s;
  '(b, r') ← re_class q r;
  [(int_of_digits [a; b], r')].

Definition re_class1 (p : ascii -> bool) (s : list ascii)
  : list (Z * list ascii) :=
  '(a, r) ← re_class p s; [(int_of_digits [a], r)].

(** [%Y] is [(?P<Y>\d\d\d\d)]. *)
Definition re_Y (s : list ascii) : list (Z * list ascii) :=
  '(a, r1) ← re_class is_digit s;
  '(b, r2) ← re_class is_digit r1;
  '(c, r3) ← re_class is_digit r2;
  '(d, r4) ← re_class is_digit r3;
  [(int_of_digits [a; b; c; d], r4)].

(** [%m] is [(?P<m>1[0-2]|0[1-9]|[1-9])]. *)
Definition re_m (s : list ascii) : list (Z * list ascii) :=
  re_class2 (in_range "1" "1") (in_range "0" "2") s
  ++ re_class2 (in_range "0" "0") (in_range "1" "9") s
  ++ re_class1 (in_range "1" "9") s.

(** [%d] is [(?P<d>3[0-1]|[1-2]\d|0[1-9]|[1-9]| [1-9])]. *)
Definition re_d (s : list ascii) : list (Z * list ascii) :=
  re_class2 (in_range "3" "3") (in_range "0" "1") s
  ++ re_class2 (in_range "1" "2") is_digit s
  ++ re_class2 (in_range "0" "0") (in_range "1" "9") s
  ++ re_class1 (in_range "1" "9") s
  ++ re_class2 (in_range " " " ") (in_range "1" "9") s.

(** [format_regex.match(data_string)] for the format [%Y-%m-%d]: the
    first way to match a prefix of the input, with what is left over. *)
Definition format_regex_match (s : list ascii)
  : option (Z * Z * Z * list ascii) :=
  head ('(y, r1) ← re_Y s;
        r2 ← re_lit "-" r1;
        '(m, r3) ← re_m r2;
        r4 ← re_lit "-" r3;
        '(d, r5) ← re_d r4;
        [(y, m, d, r5)]).

Definition is_leap (y : Z) : bool :=
  (y mod 4 =? 0) && (negb (y mod 100 =? 0) || (y mod 400 =? 0)).

Definition days_in_month (y m : Z) : Z :=
  match m with
  | 2 => if is_leap y then 29 else 28
  | 4 | 6 | 9 | 11 => 30
  | _ => 31
  end.

(** The checks of the [datetime.date] constructor ([MINYEAR] is 1,
    [MAXYEAR] 9999). *)
Definition valid_date (y m d : Z) : bool :=
  (1 <=? y) && (y <=? 9999) && (1 <=? m) && (m <=? 12)
  && (1 <=? d) && (d <=? days_in_month y m).

(** No match, unconverted data after the match and an impossible date all
    raise [ValueError]. *)
Definition strptime (data_string : string) : result date :=
  match format_regex_match (String.list_ascii_of_string data_string) with
  | None => Raise ValueError
  | Some (y, m, d, rest) =>
      match rest with
      | _ :: _ => Raise ValueError
      | [] => if valid_date y m d then Ret (Date y m d) else Raise ValueError
      end
  end.

Definition digit (n : Z) : ascii := ascii_of_nat (Z.to_nat (48 + n mod 10)).

Definition zfill2 (n : Z) : string :=
  String (digit (n / 10)) (String (digit n) EmptyString).

Definition zfill4 (n : Z) : string :=
  String (digit (n / 1000)) (String (digit (n / 100)) (zfill2 n)).

(** [%Y] with four digits, [%m] and [%d] with two, as the Python
    documentation gives them (a C library that does not pad the years
    below 1000 is not modelled). *)
Definition strftime (d : date) : string :=
  zfill4 (year d) +:+ "-" +:+ zfill2 (month d) +:+ "-" +:+ zfill2 (day d).

End Datetime.

(** ** [os.path.join] (posixpath) for two components *)

Definition startswith_sep (s : string) : bool :=
  match s with
  | String c _ => bool_decide (c = "/"%char)
  | EmptyString => false
  end.

Fixpoint endswith_sep (s : string) : bool :=
  match s with
  | EmptyString => false
  | String c EmptyString => bool_decide (c = "/"%char)
  | String _ r => endswith_sep r
  end.

Definition os_path_join (a b : string) : string :=
  if startswith_sep b then b
  else if bool_decide (a = "") || endswith_sep a then a +:+ b
  else a +:+ "/" +:+ b.

(** ** Data *)

Abbreviation Q := QArith_base.Q.

(** A cell of a DataFrame: text, a number, the list under [keys] of a
    response row, or a missing value ([None]/[NaN]). *)
Inductive cell : Type :=
  | Str (s : string)
  | Num (x : Q)
  | Keys (l : list string)
  | NA.

(** A DataFrame by rows: the column labels and, per row of the index, one
    cell per column.  The writer is specified on flat tables ([flat_table]
    below): pairwise different labels and text in the [date] column, which
    is what [execute_request] returns. *)
Record DataFrame : Type := mkDataFrame {
  columns : list string;
  data : list (list cell)
}.

(** A row of the [rows] array of a response, in the order of its fields. *)
Record api_row : Type := mkRow {
  keys : list string;
  clicks : Q;
  impressions : Q;
  ctr : Q;
  position : Q
}.

(** The response dict: [rows] is absent when the query matched nothing. *)
Record response : Type := mkResponse { rows : option (list api_row) }.

(** The request body as it goes over the wire. *)
Record wire_request : Type := mkWire {
  startDate : string;
  endDate : string;
  dimensions : list string;
  rowLimit : Z;
  startRow : Z
}.

(** The [service] object built by [googleapiclient.discovery.build]:
    [searchanalytics().query(siteUrl, body).execute()] answers or raises. *)
Record Resource : Type := mkResource {
  searchanalytics_query : string -> wire_request -> result response
}.

(** A list object is named by its location in the heap. *)
Definition loc : Type := nat.

(** The request body dict of [execute_request]: its [dimensions] entry is
    the caller's list object itself, not a copy. *)
Record request_body : Type := mkBody {
  rb_startDate : string;
  rb_endDate : string;
  rb_dimensions : loc;
  rb_rowLimit : Z;
  rb_startRow : Z
}.

(** The lines the program prints, one constructor per [print] call. *)
Inductive message : Type :=
  | MsgKeyFileNotFound (service_account_file : string)
  | MsgCheckPath
  | MsgAuthError (e : exn)
  | MsgNotInitialized
  | MsgNoData (dims : list string) (start_date end_date : string)
  | MsgHttpError (e : exn)
  | MsgErrorContent (e : exn)
  | MsgRequestError (e : exn)
  | MsgNoDateColumn (report_type : string)
  | MsgSplitting (report_type : string) (n : nat)
  | MsgSkipping (date_str : string)
  | MsgCouldNotSave (date_str : string) (e : exn)
  | MsgSaved (report_type base_dir : string)
  | MsgFailedInit
  | MsgFetching (report_name start_date end_date : string)
  | MsgNoDataReturned (report_name : string).

(** The effects of a run, in the order they happen.  [Makedirs] and [ToCsv]
    are recorded when the operation succeeded, [Query] when the request was
    sent. *)
Inductive event : Type :=
  | Printed (m : message)
  | Query (siteUrl : string) (body : wire_request)
  | Makedirs (path : string)
  | ToCsv (path : string) (content : list (list cell)).

Record world : Type := mkWorld {
  dirs : gset string;
  files : gmap string (list (list cell));
  heap : list (list string)
}.

(** ** Computations *)

Record outcome (A : Type) : Type := mkOutcome {
  res : result A;
  final : world;
  out : list event
}.
Arguments mkOutcome {A} res final out.
Arguments res {A} o.
Arguments final {A} o.
Arguments out {A} o.

Definition M (A : Type) : Type := world -> outcome A.

#[global] Instance M_ret : MRet M :=
  fun A (a : A) (w : world) => mkOutcome (Ret a) w [].

#[global] Instance M_bind : MBind M :=
  fun A B (f : A -> M B) (m : M A) (w : world) =>
    let o := m w in
    match res o with
    | Ret a => let o' := f a (final o) in
               mkOutcome (res o') (final o') (out o ++ out o')
    | Raise e => mkOutcome (Raise e) (final o) (out o)
    end.

Definition lift {A : Type} (r : result A) : M A :=
  fun w => mkOutcome r w [].

Definition emit (ev : event) : M unit :=
  fun w => mkOutcome (Ret tt) w [ev].

Definition print (m : message) : M unit := emit (Printed m).

(** The classes named in the [except] clauses of the program. *)
Inductive exn_class : Type :=
  | CFileNotFoundError
  | CHttpError
  | CValueError
  | CException.

Definition isinstance (e : exn) (c : exn_class) : bool :=
  match c, e with
  | CException, _ => true
  | CFileNotFoundError, FileNotFoundError => true
  | CHttpError, HttpError => true
  | CValueError, ValueError => true
  | _, _ => false
  end.

Fixpoint find_handler {A : Type} (e : exn)
    (clauses : list (exn_class * (exn -> M A))) : option (M A) :=
  match clauses with
  | [] => None
  | (c, h) :: rest => if isinstance e c then Some (h e) else find_handler e rest
  end.

(** [try: m except c1: h1 except c2: h2 ...]: the first clause whose class
    the exception belongs to handles it; the effects of [m] up to the
    [raise] stay. *)
Definition try_except {A : Type} (m : M A)
    (clauses : list (exn_class * (exn -> M A))) : M A :=
  fun w =>
    let o := m w in
    match res o with
    | Ret _ => o
    | Raise e =>
        match find_handler e clauses with
        | None => o
        | Some h => let o' := h (final o) in
                    mkOutcome (res o') (final o') (out o ++ out o')
        end
    end.

(** [for x in l: body]. *)
Fixpoint for_each {A : Type} (l : list A) (body : A -> M unit) : M unit :=
  match l with
  | [] => mret tt
  | x :: l' => body x ;; for_each l' body
  end.

(** *** List objects *)

Definition deref (l : loc) : M (list string) :=
  fun w => mkOutcome (Ret (default [] (heap w !! l))) w [].

(** [x in l] *)
Definition list_contains (l : loc) (x : string) : M bool :=
  v ← deref l; mret (bool_decide (x ∈ v)).

(** [l.append(x)] *)
Definition list_append (l : loc) (x : string) : M unit :=
  fun w =>
    mkOutcome (Ret tt)
      (mkWorld (dirs w) (files w)
         (<[l := default [] (heap w !! l) ++ [x]]> (heap w))) [].

(** A list display [[a, b, ...]]: a new list object. *)
Definition new_list (v : list string) : M loc :=
  fun w =>
    mkOutcome (Ret (length (heap w)))
      (mkWorld (dirs w) (files w) (heap w ++ [v])) [].

(** [l.copy()] *)
Definition list_copy (l : loc) : M loc :=
  v ← deref l; new_list v.

(** ** pandas, as far as the program uses it *)

(** [pd.DataFrame()] *)
Definition DataFrame_new : DataFrame := mkDataFrame [] [].

(** [df.empty]: some axis has length 0. *)
Definition df_empty (df : DataFrame) : bool :=
  bool_decide (columns df = []) || bool_decide (data df = []).

(** The position of a label among the columns. *)
Definition column_index (name : string) (df : DataFrame) : option nat :=
  fst <$> list_find (fun c => c = name) (columns df).

Definition record_columns : list string :=
  ["keys"; "clicks"; "impressions"; "ctr"; "position"].

Definition metric_columns : list string :=
  ["clicks"; "impressions"; "ctr"; "position"].

Definition record_cells (r : api_row) : list cell :=
  [Keys (keys r); Num (clicks r); Num (impressions r); Num (ctr r);
   Num (position r)].

(** [pd.DataFrame(records)] for a list of dicts: the columns are the fields
    in the order the records give them; no record, no column. *)
Definition DataFrame_of_records (rs : list api_row) : DataFrame :=
  match rs with
  | [] => DataFrame_new
  | _ :: _ => mkDataFrame record_columns (record_cells <$> rs)
  end.

(** [df[name]]: the cells of one column, [KeyError] without it. *)
Definition getitem (df : DataFrame) (name : string) : result (list cell) :=
  match column_index name df with
  | None => Raise KeyError
  | Some i => Ret ((fun row => default NA (row !! i)) <$> data df)
  end.

(** [series.tolist()] on the [keys] column. *)
Definition tolist (col : list cell) : list (list string) :=
  (fun c => match c with Keys l => l | _ => [] end) <$> col.

(** [pd.DataFrame(lists, index=df.index)] for a list of lists: as many
    columns, labelled 0, 1, ..., as the longest list has elements; shorter
    rows are filled with missing values. *)
Definition frame_width (ls : list (list string)) : nat :=
  max_list (length <$> ls).

Definition DataFrame_of_lists (ls : list (list string)) : list (list cell) :=
  (fun l => (Str <$> l) ++ replicate (frame_width ls - length l) NA) <$> ls.

(** [df[name] = values]: an existing column is overwritten in place, a new
    one is added after the last. *)
Definition setitem (df : DataFrame) (name : string) (values : list cell)
    : DataFrame :=
  match column_index name df with
  | Some i =>
      mkDataFrame (columns df)
        (zip_with (fun row v => <[i := v]> row) (data df) values)
  | None =>
      mkDataFrame (columns df ++ [name])
        (zip_with (fun row v => row ++ [v]) (data df) values)
  end.

(** [df[key] = value] for a list of labels and a frame: [ValueError]
    ("Columns must be same length as key") unless the frame has one column
    per label; then [df[k1] = value[k2]] for the labels and the columns of
    the frame taken in pairs. *)
Definition setitem_array (df : DataFrame) (key : list string)
    (width : nat) (value : list (list cell)) : result DataFrame :=
  if bool_decide (width = length key) then
    Ret (foldl
           (fun acc '(k1, k2) =>
              setitem acc k1 ((fun row => default NA (row !! k2)) <$> value))
           df (zip key (seq 0 width)))
  else Raise ValueError.

(** [df.drop(columns=[name])] *)
Definition drop_column (df : DataFrame) (name : string) : result DataFrame :=
  match column_index name df with
  | None => Raise KeyError
  | Some i => Ret (mkDataFrame (delete i (columns df)) (delete i <$> data df))
  end.

(** The group key of a row: the text in column [i]; a missing value has
    none. *)
Definition row_key (i : nat) (row : list cell) : option string :=
  match row !! i with
  | Some (Str s) => Some s
  | _ => None
  end.

(** The keys of [df.groupby(name)]: the distinct values, in ascending
    order; rows with a missing key are dropped. *)
Definition group_keys (i : nat) (df : DataFrame) : list string :=
  merge_sort String.le (remove_dups (omap (row_key i) (data df))).

(** The rows of one group, in the order of the frame. *)
Definition group_rows (i : nat) (k : string) (df : DataFrame)
    : list (list cell) :=
  filter (fun row => row_key i row = Some k) (data df).

(** [df.groupby(name)], iterated: the pairs of key and sub-frame. *)
Definition groupby (df : DataFrame) (name : string)
    : result (list (string * DataFrame)) :=
  match column_index name df with
  | None => Raise KeyError
  | Some i =>
      Ret ((fun k => (k, mkDataFrame (columns df) (group_rows i k df)))
             <$> group_keys i df)
  end.

(** The records of [df.to_csv(path, index=False)]: the header, then one
    record per row. *)
Definition csv_lines (df : DataFrame) : list (list cell) :=
  (Str <$> columns df) :: data df.

(** Text or a missing value: what a dimension column holds. *)
Definition textual (c : cell) : bool :=
  match c with
  | Str _ | NA => true
  | _ => false
  end.

(** A flat table as the spec's data model has it: pairwise different
    labels, one cell per column in every row, and text or a missing value
    in the [date] column. *)
Definition flat_table (df : DataFrame) : bool :=
  bool_decide (NoDup (columns df))
  && forallb (fun row => bool_decide (length row = length (columns df))) (data df)
  && match column_index "date" df with
     | None => true
     | Some i =>
         forallb (fun row => match row !! i with
                             | Some c => textual c
                             | None => false
                             end) (data df)
     end.

(** The same as a proposition, with the [date] column found by its label. *)
Definition flat (df : DataFrame) : Prop :=
  NoDup (columns df)
  /\ Forall (fun row => length row = length (columns df)) (data df)
  /\ forall i, columns df !! i = Some "date" ->
       Forall (fun row => exists c, row !! i = Some c /\ textual c = true)
         (data df).

(** ** The program *)

Section Program.

(** The environment: the credential loader of google-auth, the service
    builder of googleapiclient and the operating system, which refuses the
    operations on some paths with an exception ([io_fault] names the paths
    and the exception; a path it accepts is created or written). *)
Variable Credentials : Type.
Variable from_service_account_file : string -> list string -> result Credentials.
Variable build : string -> string -> Credentials -> result Resource.
Variable io_fault : string -> option exn.

(** [os.makedirs(path, exist_ok=True)] *)
Definition os_makedirs (path : string) : M unit :=
  fun w =>
    match io_fault path with
    | Some e => mkOutcome (Raise e) w []
    | None =>
        mkOutcome (Ret tt) (mkWorld ({[path]} ∪ dirs w) (files w) (heap w))
          [Makedirs path]
    end.

(** [df.to_csv(path, index=False)] *)
Definition to_csv (df : DataFrame) (path : string) : M unit :=
  fun w =>
    match io_fault path with
    | Some e => mkOutcome (Raise e) w []
    | None =>
        mkOutcome (Ret tt)
          (mkWorld (dirs w) (<[path := csv_lines df]> (files w)) (heap w))
          [ToCsv path (csv_lines df)]
    end.

(** [service.searchanalytics().query(siteUrl=..., body=...).execute()]: the
    body is serialised with the list its [dimensions] entry refers to at
    that moment. *)
Definition query_execute (service : Resource) (siteUrl : string)
    (body : request_body) : M response :=
  dims ← deref (rb_dimensions body);
  let wire := mkWire (rb_startDate body) (rb_endDate body) dims
                (rb_rowLimit body) (rb_startRow body) in
  emit (Query siteUrl wire) ;;
  lift (searchanalytics_query service siteUrl wire).

Record SearchConsoleAPI : Type := mkAPI {
  service_account_file : string;
  scopes : list string;
  service : option Resource
}.

Definition _authenticate (file : string) (scopes : list string)
    : M (option Resource) :=
  try_except
    (credentials ← lift (from_service_account_file file scopes);
     r ← lift (build "searchconsole" "v1" credentials);
     mret (Some r))
    [(CFileNotFoundError, fun _ =>
        print (MsgKeyFileNotFound file) ;;
        print MsgCheckPath ;;
        mret None);
     (CException, fun e =>
        print (MsgAuthError e) ;;
        mret None)].

Definition __init__ (service_account_file : string) (scopes : list string)
    : M SearchConsoleAPI :=
  s ← _authenticate service_account_file scopes;
  mret (mkAPI service_account_file scopes s).

Definition execute_request (self : SearchConsoleAPI) (property_uri : string)
    (start_date end_date : string) (dimensions : loc) (row_limit : Z)
    : M DataFrame :=
  match service self with
  | None =>
      print MsgNotInitialized ;;
      mret DataFrame_new
  | Some svc =>
      has_date ← list_contains dimensions "date";
      (if negb has_date then list_append dimensions "date" else mret tt) ;;
      let request_body := mkBody start_date end_date dimensions row_limit 0 in
      try_except
        (response ← query_execute svc property_uri request_body;
         match rows response with
         | None =>
             dims ← deref dimensions;
             print (MsgNoData dims start_date end_date) ;;
             mret DataFrame_new
         | Some rs =>
             let df := DataFrame_of_records rs in
             keys_column ← lift (getitem df "keys");
             let lists := tolist keys_column in
             key ← deref (rb_dimensions request_body);
             df ← lift (setitem_array df key (frame_width lists)
                          (DataFrame_of_lists lists));
             df ← lift (drop_column df "keys");
             mret df
         end)
        [(CHttpError, fun e =>
            print (MsgHttpError e) ;;
            print (MsgErrorContent e) ;;
            mret DataFrame_new);
         (CException, fun e =>
            print (MsgRequestError e) ;;
            mret DataFrame_new)]
  end.

(** The body of the loop of [save_daily_csvs] for one group. *)
Definition save_group (report_type base_dir : string)
    (group : string * DataFrame) : M unit :=
  let '(date_str, daily_df) := group in
  try_except
    (date_obj ← lift (Datetime.strptime date_str);
     let dir_path := os_path_join base_dir report_type in
     os_makedirs dir_path ;;
     let file_name :=
       report_type +:+ "_" +:+ Datetime.strftime date_obj +:+ ".csv" in
     let file_path := os_path_join dir_path file_name in
     to_csv daily_df file_path)
    [(CValueError, fun _ => print (MsgSkipping date_str));
     (CException, fun e => print (MsgCouldNotSave date_str e))].

Definition save_daily_csvs (df : DataFrame) (report_type base_dir : string)
    : M unit :=
  if negb (bool_decide ("date" ∈ columns df)) then
    print (MsgNoDateColumn report_type)
  else
    grouped ← lift (groupby df "date");
    print (MsgSplitting report_type (length grouped)) ;;
    for_each grouped (save_group report_type base_dir) ;;
    print (MsgSaved report_type base_dir).

(** The parsed command line; [--limit] is any Python [int]. *)
Record Args : Type := mkArgs {
  property : string;
  sa_file : string;
  start : string;
  end_ : string;
  output_dir : string;
  limit : Z
}.

Definition SCOPES : list string :=
  ["https://www.googleapis.com/auth/webmasters.readonly"].

(** The report types with their dimensions, in the order of the dict. *)
Definition report_definitions : list (string * list string) :=
  [("page_query_country_device", ["page"; "query"; "country"; "device"]);
   ("search_appearance", ["searchAppearance"]);
   ("query_page", ["query"; "page"]);
   ("page", ["page"]);
   ("query", ["query"]);
   ("country", ["country"]);
   ("device", ["device"])].

(** Building the dict [reports_to_run] creates its seven list objects. *)
Fixpoint make_reports (defs : list (string * list string))
    : M (list (string * loc)) :=
  match defs with
  | [] => mret []
  | (name, dims) :: rest =>
      l ← new_list dims;
      items ← make_reports rest;
      mret ((name, l) :: items)
  end.

(** The body of the loop of [main] for one report. *)
Definition run_report (args : Args) (sc_api : SearchConsoleAPI)
    (item : string * loc) : M unit :=
  let '(report_name, dimensions_list) := item in
  print (MsgFetching report_name (start args) (end_ args)) ;;
  dims_copy ← list_copy dimensions_list;
  df ← execute_request sc_api (property args) (start args) (end_ args)
         dims_copy (limit args);
  if negb (df_empty df) then
    save_daily_csvs df report_name (output_dir args)
  else
    print (MsgNoDataReturned report_name).

Definition main (args : Args) : M unit :=
  reports_to_run ← make_reports report_definitions;
  sc_api ← __init__ (sa_file args) SCOPES;
  match service sc_api with
  | None => print MsgFailedInit
  | Some _ => for_each reports_to_run (run_report args sc_api)
  end.

End Program.

(** ** Notions the properties are stated with *)

(** The date of a row: the text in its [date] column. *)
Definition date_of (df : DataFrame) (row : list cell) : option string :=
  i ← column_index "date" df; row_key i row.

(** The distinct dates of a frame, in the order [groupby] yields them. *)
Definition date_values (df : DataFrame) : list string :=
  match column_index "date" df with
  | Some i => group_keys i df
  | None => []
  end.

(** The rows of a frame with a given date, and the frame they make. *)
Definition rows_on (s : string) (df : DataFrame) : list (list cell) :=
  filter (fun row => date_of df row = Some s) (data df).

Definition daily_frame (s : string) (df : DataFrame) : DataFrame :=
  mkDataFrame (columns df) (rows_on s df).

Definition parses (s : string) : bool :=
  match Datetime.strptime s with
  | Ret _ => true
  | Raise _ => false
  end.

(** A date value in the form [strftime] gives back. *)
Definition canonical (s : string) : Prop :=
  exists d, Datetime.strptime s = Ret d /\ Datetime.strftime d = s.

(** [<base_dir>/<report_type>/<report_type>_<date>.csv], joined as
    [os.path.join] does. *)
Definition daily_file (report_type base_dir date : string) : string :=
  os_path_join (os_path_join base_dir report_type)
    (report_type +:+ "_" +:+ date +:+ ".csv").

(** The files written and the requests sent, read off the effects. *)
Definition csv_writes (evs : list event) : list (string * list (list cell)) :=
  omap (fun ev => match ev with ToCsv p c => Some (p, c) | _ => None end) evs.

Definition queries (evs : list event) : list wire_request :=
  omap (fun ev => match ev with Query _ b => Some b | _ => None end) evs.

(** The effects of [save_group] on a group whose date parses, when the
    operating system accepts both operations. *)
Definition group_events (report_type base_dir : string)
    (group : string * DataFrame) : list event :=
  match Datetime.strptime (fst group) with
  | Ret d =>
      [Makedirs (os_path_join base_dir report_type);
       ToCsv (daily_file report_type base_dir (Datetime.strftime d))
         (csv_lines (snd group))]
  | Raise _ => [Printed (MsgSkipping (fst group))]
  end.

Definition group_world (report_type base_dir : string) (w : world)
    (group : string * DataFrame) : world :=
  match Datetime.strptime (fst group) with
  | Ret d =>
      mkWorld ({[os_path_join base_dir report_type]} ∪ dirs w)
        (<[daily_file report_type base_dir (Datetime.strftime d)
           := csv_lines (snd group)]> (files w))
        (heap w)
  | Raise _ => w
  end.

(** The number of times [date] occurs in a list of dimensions. *)
Definition count_date (l : list string) : nat :=
  length (filter (fun x => x = "date") l).

(** The list a caller's list [v] has become when the request is built. *)
Definition dimensions_sent (v : list string) : list string :=
  if bool_decide ("date" ∈ v) then v else v ++ ["date"].

(** Lines 82 to 87 of [execute_request] on the rows of a response, for the
    dimensions of the request. *)
Definition reshape (rs : list api_row) (key : list string) : result DataFrame :=
  let df := DataFrame_of_records rs in
  match getitem df "keys" with
  | Raise e => Raise e
  | Ret keys_column =>
      let lists := tolist keys_column in
      match setitem_array df key (frame_width lists) (DataFrame_of_lists lists) with
      | Raise e => Raise e
      | Ret df' => drop_column df' "keys"
      end
  end.

(** What the two handlers of [execute_request] print. *)
Definition request_failed (e : exn) : list event :=
  if isinstance e CHttpError
  then [Printed (MsgHttpError e); Printed (MsgErrorContent e)]
  else [Printed (MsgRequestError e)].

(** The table [execute_request] returns and what it prints, by the answer
    of the service. *)
Definition answer_of (r : result response) (dims : list string)
    (start_date end_date : string) : DataFrame * list event :=
  match r with
  | Raise e => (DataFrame_new, request_failed e)
  | Ret resp =>
      match rows resp with
      | None => (DataFrame_new, [Printed (MsgNoData dims start_date end_date)])
      | Some rs =>
          match reshape rs dims with
          | Ret df => (df, [])
          | Raise e => (DataFrame_new, request_failed e)
          end
      end
  end.

(** The heap after the [if 'date' not in dimensions] statement, and the
    list at [l] then. *)
Definition heap_after_append (l : loc) (h : list (list string))
    : list (list string) :=
  let v := default [] (h !! l) in
  if bool_decide ("date" ∈ v) then h else <[l := v ++ ["date"]]> h.

Definition dimensions_at (l : loc) (h : list (list string)) : list string :=
  default [] (heap_after_append l h !! l).

(** The items of [reports_to_run] when the first list is created at
    location [n]. *)
Fixpoint report_items (n : nat) (defs : list (string * list string))
    : list (string * loc) :=
  match defs with
  | [] => []
  | (name, _) :: rest => (name, n) :: report_items (S n) rest
  end.

Section Authentication.

Variable Credentials : Type.
Variable from_service_account_file : string -> list string -> result Credentials.
Variable build : string -> string -> Credentials -> result Resource.

(** The handle [_authenticate] returns, and what it prints. *)
Definition handle_of (file : string) (scopes : list string) : option Resource :=
  match from_service_account_file file scopes with
  | Raise _ => None
  | Ret credentials =>
      match build "searchconsole" "v1" credentials with
      | Raise _ => None
      | Ret r => Some r
      end
  end.

Definition authentication_failed (file : string) (e : exn) : list event :=
  if isinstance e CFileNotFoundError
  then [Printed (MsgKeyFileNotFound file); Printed MsgCheckPath]
  else [Printed (MsgAuthError e)].

Definition authentication_events (file : string) (scopes : list string)
    : list event :=
  match from_service_account_file file scopes with
  | Raise e => authentication_failed file e
  | Ret credentials =>
      match build "searchconsole" "v1" credentials with
      | Raise e => authentication_failed file e
      | Ret _ => []
      end
  end.

End Authentication.

(** The groups [save_daily_csvs] iterates over. *)
Definition groups_of (df : DataFrame) : list (string * DataFrame) :=
  (fun k => (k, daily_frame k df)) <$> date_values df.

(** ** Sample inputs *)

Module Sample.

Definition num (n : Z) : Q := QArith_base.Qmake n 1.

(** An operating system that accepts every operation. *)
Definition no_fault : string -> option exn := fun _ => None.

(** An empty file system and an empty heap. *)
Definition world0 : world := mkWorld ∅ ∅ [].

(** A heap with one list object, at location 0. *)
Definition world_with (v : list string) : world := mkWorld ∅ ∅ [v].

Definition header : list string :=
  ["clicks"; "impressions"; "ctr"; "position"; "query"; "date"].

Definition row (query date : string) (n : Z) : list cell :=
  [Num (num n); Num (num (10 * n)); Num (QArith_base.Qmake 1 10);
   Num (num 3); Str query; Str date].

(** Two dates in the form the service gives them. *)
Definition two_days : DataFrame :=
  mkDataFrame header
    [row "rocq" "2024-01-02" 1; row "coq" "2024-01-01" 2;
     row "stdpp" "2024-01-02" 3].

(** One date that does not parse among two that do. *)
Definition with_bad_date : DataFrame :=
  mkDataFrame header
    [row "rocq" "2024-01-02" 1; row "coq" "yesterday" 2;
     row "stdpp" "2024-01-01" 3].

(** The same day written in two ways. *)
Definition same_day_twice : DataFrame :=
  mkDataFrame header [row "rocq" "2024-01-05" 1; row "coq" "2024-1-5" 2].

Definition without_date : DataFrame :=
  mkDataFrame ["clicks"; "query"] [[Num (num 1); Str "rocq"]].

(** A service that answers every query with two rows, one per day. *)
Definition answering : Resource :=
  mkResource (fun _ body =>
    Ret (mkResponse (Some
      [mkRow ["rocq"; "2024-01-01"] (num 1) (num 10) (QArith_base.Qmake 1 10) (num 3);
       mkRow ["coq"; "2024-01-02"] (num 2) (num 20) (QArith_base.Qmake 1 10) (num 3)]))).

(** The table [execute_request] makes of that answer for the dimensions
    [query] and [date]. *)
Definition answered : DataFrame :=
  mkDataFrame header [row "rocq" "2024-01-01" 1; row "coq" "2024-01-02" 2].

(** A service that finds no data, and one that is refused. *)
Definition silent : Resource :=
  mkResource (fun _ _ => Ret (mkResponse None)).

Definition refusing : Resource :=
  mkResource (fun _ _ => Raise HttpError).

Definition client (s : option Resource) : SearchConsoleAPI :=
  mkAPI "key.json" SCOPES s.

Definition args (n : Z) : Args :=
  mkArgs "sc-domain:example.com" "key.json" "2024-01-01" "2024-01-02"
    "search_console_reports" n.

(** Credential loaders: the key file is there, or it is not. *)
Definition key_found : string -> list string -> result unit :=
  fun _ _ => Ret tt.

Definition key_missing : string -> list string -> result unit :=
  fun _ _ => Raise FileNotFoundError.

Definition build_with (r : Resource) : string -> string -> unit -> result Resource :=
  fun _ _ _ => Ret r.

End Sample.


(** ** Further notions *)

(** The date [save_daily_csvs] names the file of a date value after. *)
Definition normalized (s : string) : string :=
  match Datetime.strptime s with
  | Ret d => Datetime.strftime d
  | Raise _ => s
  end.

(** The message of the handlers of [save_group] for an exception. *)
Definition save_failed (date_str : string) (e : exn) : message :=
  if isinstance e CValueError then MsgSkipping date_str
  else MsgCouldNotSave date_str e.

(** The requests sent, with the site they are sent for. *)
Definition requests (evs : list event) : list (string * wire_request) :=
  omap (fun ev => match ev with Query site b => Some (site, b) | _ => None end)
    evs.

(** The request [main] sends for a report definition. *)
Definition report_request (args : Args) (def : string * list string)
    : string * wire_request :=
  (property args,
   mkWire (start args) (end_ args) (dimensions_sent def.2) (limit args) 0).

(** The row of the reshaped table for a row of the response, for [n]
    dimensions. *)
Definition table_row (n : nat) (r : api_row) : list cell :=
  [Num (clicks r); Num (impressions r); Num (ctr r); Num (position r)]
  ++ (Str <$> keys r) ++ replicate (n - length (keys r)) NA.

(** ** Further sample inputs *)

Module Faults.

(** An operating system that refuses one path. *)
Definition refusing_path (p : string) (e : exn) : string -> option exn :=
  fun q => if bool_decide (q = p) then Some e else None.

(** The rows of an answer with three keys each. *)
Definition three_keys : list api_row :=
  [mkRow ["rocq"; "2024-01-01"; "web"] (Sample.num 1) (Sample.num 10)
     (QArith_base.Qmake 1 10) (Sample.num 3)].

(** A service that answers every query with those rows. *)
Definition misfitting : Resource :=
  mkResource (fun _ _ => Ret (mkResponse (Some three_keys))).

(** The rows of the answer of [Sample.answering]. *)
Definition two_rows : list api_row :=
  [mkRow ["rocq"; "2024-01-01"] (Sample.num 1) (Sample.num 10)
     (QArith_base.Qmake 1 10) (Sample.num 3);
   mkRow ["coq"; "2024-01-02"] (Sample.num 2) (Sample.num 20)
     (QArith_base.Qmake 1 10) (Sample.num 3)].

(** A credential loader that finds a key file it cannot read. *)
Definition key_malformed : string -> list string -> result unit :=
  fun _ _ => Raise ValueError.

End Faults.

(** * Properties *)

(** ** Strings and paths *)

Lemma string_app_cons (a : ascii) (s t : string) :
  String a s +:+ t = String a (s +:+ t).
Proof. reflexivity. Qed.

Lemma string_app_length (s t : string) :
  String.length (s +:+ t) = (String.length s + String.length t)%nat.
Proof.
  induction s as [|a s IH]; [reflexivity|].
  rewrite string_app_cons. simpl. by rewrite IH.
Qed.

Lemma string_app_inj_r (t s1 s2 : string) :
  s1 +:+ t = s2 +:+ t -> s1 = s2.
Proof.
  revert s2. induction s1 as [|a s1 IH]; intros [|b s2] H.
  - reflexivity.
  - apply (f_equal String.length) in H.
    rewrite string_app_cons in H. simpl in H.
    rewrite !string_app_length in H. simpl in H. lia.
  - apply (f_equal String.length) in H.
    rewrite string_app_cons in H. simpl in H.
    rewrite !string_app_length in H. simpl in H. lia.
  - rewrite !string_app_cons in H. injection H as -> H.
    f_equal. by apply IH.
Qed.

Lemma startswith_sep_file_name (rt s t : string) :
  startswith_sep (rt +:+ "_" +:+ s) = startswith_sep (rt +:+ "_" +:+ t).
Proof. destruct rt; reflexivity. Qed.

(** Different dates give different file names. *)
Lemma daily_file_inj (rt base : string) : Inj (=) (=) (daily_file rt base).
Proof.
  intros s t. unfold daily_file.
  generalize (os_path_join base rt). intros dir. unfold os_path_join.
  rewrite (startswith_sep_file_name rt (s +:+ ".csv") (t +:+ ".csv")).
  destruct (startswith_sep _).
  - intros H. apply String.app_inj, String.app_inj in H.
    by apply string_app_inj_r in H.
  - destruct (_ || _).
    + intros H. do 3 apply String.app_inj in H. by apply string_app_inj_r in H.
    + intros H. do 4 apply String.app_inj in H. by apply string_app_inj_r in H.
Qed.

(** ** Parsing dates *)

Lemma strptime_raises (s : string) (e : exn) :
  Datetime.strptime s = Raise e -> e = ValueError.
Proof.
  unfold Datetime.strptime.
  destruct (Datetime.format_regex_match _) as [[[[y m] d] [|c rest]]|];
    [destruct (Datetime.valid_date y m d)|..]; congruence.
Qed.

Lemma parses_Ret (s : string) :
  parses s = true <-> exists d, Datetime.strptime s = Ret d.
Proof.
  unfold parses. destruct (Datetime.strptime s); split; eauto;
    intros; try done. by destruct H.
Qed.

Lemma canonical_parses (s : string) : canonical s -> parses s = true.
Proof. intros (d & H & _). apply parses_Ret. eauto. Qed.

(** ** Frames and groups *)

Lemma column_index_elem_of (name : string) (df : DataFrame) :
  name ∈ columns df ->
  exists i, column_index name df = Some i /\ columns df !! i = Some name.
Proof.
  intros H. unfold column_index.
  destruct (list_find _ _) as [[i x]|] eqn:E; simpl.
  - apply list_find_Some in E as (? & -> & _). eauto.
  - apply list_find_None in E. rewrite Forall_forall in E.
    by destruct (E name H).
Qed.

Lemma elem_of_group_keys (i : nat) (df : DataFrame) (s : string) :
  s ∈ group_keys i df <-> exists row, row ∈ data df /\ row_key i row = Some s.
Proof.
  unfold group_keys.
  by rewrite merge_sort_Permutation, elem_of_remove_dups, list_elem_of_omap.
Qed.

Lemma NoDup_group_keys (i : nat) (df : DataFrame) : NoDup (group_keys i df).
Proof.
  unfold group_keys. rewrite merge_sort_Permutation. apply NoDup_remove_dups.
Qed.

Lemma elem_of_date_values (df : DataFrame) (s : string) :
  s ∈ date_values df <-> exists row, row ∈ data df /\ date_of df row = Some s.
Proof.
  unfold date_values, date_of.
  destruct (column_index "date" df) as [i|]; simpl.
  - apply elem_of_group_keys.
  - split; [by intros ?%elem_of_nil | by intros (? & _ & ?)].
Qed.

Lemma NoDup_date_values (df : DataFrame) : NoDup (date_values df).
Proof.
  unfold date_values. destruct (column_index "date" df).
  - apply NoDup_group_keys.
  - constructor.
Qed.

(** [groupby] yields the dates of the frame, each with its rows. *)
Lemma groupby_date (df : DataFrame) :
  "date" ∈ columns df ->
  groupby df "date" = Ret ((fun k => (k, daily_frame k df)) <$> date_values df).
Proof.
  intros (i & E & _)%column_index_elem_of.
  unfold groupby, date_values, daily_frame, rows_on, date_of, group_rows.
  by rewrite E.
Qed.

(** Every row of a daily frame carries the date of the frame. *)
Lemma daily_frame_dates (s : string) (df : DataFrame) (row : list cell) :
  row ∈ data (daily_frame s df) -> date_of df row = Some s.
Proof. unfold daily_frame, rows_on. simpl. by intros [? _]%list_elem_of_filter. Qed.

(** ** Computations *)

Lemma bind_run {A B : Type} (m : M A) (f : A -> M B) (w : world) :
  (m ≫= f) w =
  match res (m w) with
  | Ret a => mkOutcome (res (f a (final (m w)))) (final (f a (final (m w))))
               (out (m w) ++ out (f a (final (m w))))
  | Raise e => mkOutcome (Raise e) (final (m w)) (out (m w))
  end.
Proof. reflexivity. Qed.

Lemma for_each_cons {A : Type} (body : A -> M unit) (x : A) (l : list A) :
  for_each (x :: l) body = (body x ;; for_each l body).
Proof. reflexivity. Qed.

(** A loop whose body always returns runs to its end, and its effects are
    those of its iterations. *)
Lemma for_each_returns {A : Type} (body : A -> M unit) (l : list A) (w : world) :
  (forall x w', res (body x w') = Ret tt) ->
  res (for_each l body w) = Ret tt.
Proof.
  intros Hbody. revert w. induction l as [|x l IH]; intros w; [reflexivity|].
  simpl. rewrite bind_run, Hbody. simpl. apply IH.
Qed.

Lemma for_each_out_elem_of {A : Type} (body : A -> M unit) (l : list A)
    (w : world) (ev : event) :
  ev ∈ out (for_each l body w) ->
  exists x w', x ∈ l /\ ev ∈ out (body x w').
Proof.
  revert w. induction l as [|x l IH]; intros w; simpl.
  - by intros ?%elem_of_nil.
  - rewrite bind_run. destruct (res (body x w)) eqn:E; simpl.
    + intros [H|H]%elem_of_app.
      * exists x, w. split; [left | done].
      * destruct (IH _ H) as (y & w' & ? & ?). exists y, w'. split; [by right | done].
    + intros H. exists x, w. split; [left | done].
Qed.

Lemma for_each_out_body {A : Type} (body : A -> M unit) (l : list A)
    (w : world) (x : A) (evs : list event) :
  (forall y w', res (body y w') = Ret tt) ->
  (forall w', out (body x w') = evs) ->
  x ∈ l ->
  evs ⊆ out (for_each l body w).
Proof.
  intros Hret Hout. revert w. induction l as [|y l IH]; intros w Hx.
  - by apply elem_of_nil in Hx.
  - simpl. rewrite bind_run, Hret. simpl.
    apply elem_of_cons in Hx as [<-|Hx].
    + rewrite Hout. intros ev ?. apply elem_of_app. by left.
    + intros ev ?. apply elem_of_app. right. by apply (IH _ Hx).
Qed.

Section Writer.

Variable io_fault : string -> option exn.

(** [save_group] never raises: both handlers end normally and the second
    takes every exception. *)
Lemma save_group_returns (rt base : string) (g : string * DataFrame) (w : world) :
  res (save_group io_fault rt base g w) = Ret tt.
Proof.
  destruct g as [s g]. unfold save_group, try_except. rewrite !bind_run.
  unfold lift, os_makedirs, to_csv. simpl.
  destruct (Datetime.strptime s) as [d|e] eqn:Es; simpl.
  - destruct (io_fault (os_path_join base rt)) as [e|]; simpl.
    { by destruct e. }
    destruct (io_fault _) as [e|]; simpl; [by destruct e | done].
  - by destruct e.
Qed.

(** A group whose date does not parse is skipped with a message. *)
Lemma save_group_skips (rt base s : string) (g : DataFrame) (w : world) :
  parses s = false ->
  save_group io_fault rt base (s, g) w
  = mkOutcome (Ret tt) w [Printed (MsgSkipping s)].
Proof.
  unfold parses, save_group, try_except. rewrite bind_run. unfold lift. simpl.
  destruct (Datetime.strptime s) as [d|e] eqn:Es; [done|]. intros _.
  apply strptime_raises in Es as ->. by destruct w.
Qed.

(** A group whose date parses is written, under the name of the parsed
    date, when the operating system accepts the two operations. *)
Lemma save_group_writes (rt base s : string) (g : DataFrame) (w : world)
    (d : Datetime.date) :
  Datetime.strptime s = Ret d ->
  io_fault (os_path_join base rt) = None ->
  io_fault (daily_file rt base (Datetime.strftime d)) = None ->
  save_group io_fault rt base (s, g) w
  = mkOutcome (Ret tt) (group_world rt base w (s, g))
      (group_events rt base (s, g)).
Proof.
  intros Es Hdir Hfile.
  unfold save_group, try_except, group_world, group_events. rewrite !bind_run.
  unfold lift, os_makedirs, to_csv, daily_file in *. simpl.
  rewrite Es. simpl. rewrite Hdir. simpl. rewrite Hfile. done.
Qed.

(** What [save_group] can have done, whatever the operating system says. *)
Lemma save_group_out (rt base s : string) (g : DataFrame) (w : world) (ev : event) :
  ev ∈ out (save_group io_fault rt base (s, g) w) ->
  match ev with
  | ToCsv p c =>
      exists d, Datetime.strptime s = Ret d
                /\ p = daily_file rt base (Datetime.strftime d)
                /\ io_fault p = None
                /\ c = csv_lines g
  | Makedirs p => p = os_path_join base rt /\ parses s = true
  | Printed (MsgSkipping s') =>
      s' = s /\ (parses s = false
                 \/ io_fault (os_path_join base rt) = Some ValueError
                 \/ exists d, Datetime.strptime s = Ret d
                      /\ io_fault (daily_file rt base (Datetime.strftime d))
                         = Some ValueError)
  | Printed (MsgCouldNotSave s' _) => s' = s /\ parses s = true
  | _ => False
  end.
Proof.
  unfold save_group, try_except, parses. rewrite !bind_run.
  unfold lift, os_makedirs, to_csv, daily_file in *. simpl.
  destruct (Datetime.strptime s) as [d|e] eqn:Es; simpl.
  - destruct (io_fault (os_path_join base rt)) as [e|] eqn:E1; simpl.
    { destruct e; simpl; intros ->%list_elem_of_singleton; auto. }
    destruct (io_fault (os_path_join (os_path_join base rt) _)) as [e|] eqn:E2; simpl.
    { destruct e; simpl;
        (intros [->|[->|[]%elem_of_nil]%elem_of_cons]%elem_of_cons; eauto 10). }
    intros [->|[->|[]%elem_of_nil]%elem_of_cons]%elem_of_cons; eauto 10.
  - apply strptime_raises in Es as ->. simpl.
    intros ->%list_elem_of_singleton. auto.
Qed.

End Writer.

Section Daily.

Variable io_fault : string -> option exn.

(** With a [date] column, [save_daily_csvs] is the loop over the groups
    between its two messages, and it returns. *)
Lemma save_daily_csvs_run (df : DataFrame) (rt base : string) (w : world) :
  "date" ∈ columns df ->
  let loop := for_each (groups_of df) (save_group io_fault rt base) w in
  save_daily_csvs io_fault df rt base w
  = mkOutcome (Ret tt) (final loop)
      (Printed (MsgSplitting rt (length (groups_of df)))
         :: out loop ++ [Printed (MsgSaved rt base)]).
Proof.
  intros Hdate loop. unfold save_daily_csvs.
  rewrite bool_decide_eq_true_2 by done. simpl.
  rewrite groupby_date by done. rewrite !bind_run. unfold lift, print, emit. simpl.
  rewrite !bind_run. fold (groups_of df). subst loop.
  by rewrite (for_each_returns _ _ _ (save_group_returns io_fault rt base)).
Qed.

Hypothesis io_ok : forall p, io_fault p = None.

Lemma group_world_skips (rt base s : string) (g : DataFrame) (w : world) :
  parses s = false -> group_world rt base w (s, g) = w.
Proof.
  unfold parses, group_world. simpl. by destruct (Datetime.strptime s).
Qed.

Lemma group_events_skips (rt base s : string) (g : DataFrame) :
  parses s = false -> group_events rt base (s, g) = [Printed (MsgSkipping s)].
Proof.
  unfold parses, group_events. simpl. by destruct (Datetime.strptime s).
Qed.

Lemma for_each_save_group (rt base : string) (gs : list (string * DataFrame))
    (w : world) :
  for_each gs (save_group io_fault rt base) w
  = mkOutcome (Ret tt) (foldl (group_world rt base) w gs)
      (concat (group_events rt base <$> gs)).
Proof.
  revert w. induction gs as [|[s g] gs IH]; intros w; [reflexivity|].
  rewrite for_each_cons, bind_run.
  destruct (parses s) eqn:Ep.
  - apply parses_Ret in Ep as [d Es].
    rewrite (save_group_writes io_fault rt base s g w d) by auto.
    simpl. by rewrite IH.
  - rewrite save_group_skips by done. simpl. rewrite IH.
    simpl. by rewrite group_world_skips, group_events_skips.
Qed.

Lemma files_group_worlds (rt base : string) (gs : list (string * DataFrame))
    (w : world) :
  files (foldl (group_world rt base) w gs)
  = foldl (fun f pc => <[pc.1 := pc.2]> f) (files w)
      (csv_writes (concat (group_events rt base <$> gs))).
Proof.
  revert w. induction gs as [|[s g] gs IH]; intros w; [reflexivity|].
  simpl. rewrite IH. unfold group_world at 1, group_events at 2. simpl.
  by destruct (Datetime.strptime s).
Qed.

End Daily.

Lemma foldl_insert_notin {V : Type} (ws : list (string * V))
    (f : gmap string V) (p : string) :
  p ∉ ws.*1 ->
  foldl (fun f pc => <[pc.1 := pc.2]> f) f ws !! p = f !! p.
Proof.
  revert f. induction ws as [|[q c] ws IH]; intros f Hp; [reflexivity|].
  simpl in *. apply not_elem_of_cons in Hp as [Hne Hp].
  rewrite IH by done. by rewrite lookup_insert_ne.
Qed.

Lemma foldl_insert_in {V : Type} (ws : list (string * V))
    (f : gmap string V) (p : string) (c : V) :
  NoDup ws.*1 -> (p, c) ∈ ws ->
  foldl (fun f pc => <[pc.1 := pc.2]> f) f ws !! p = Some c.
Proof.
  revert f. induction ws as [|[q c'] ws IH]; intros f Hnd Hin.
  - by apply elem_of_nil in Hin.
  - simpl in *. apply NoDup_cons in Hnd as [Hq Hnd].
    apply elem_of_cons in Hin as [[= <- <-]|Hin].
    + rewrite foldl_insert_notin by done. apply lookup_insert_eq.
    + by apply IH.
Qed.

Lemma csv_writes_app (a b : list event) :
  csv_writes (a ++ b) = csv_writes a ++ csv_writes b.
Proof. apply omap_app. Qed.

(** The files written for a list of dates in canonical form. *)
Lemma csv_writes_groups (df : DataFrame) (rt base : string) (l : list string) :
  (forall s, s ∈ l -> parses s = true -> canonical s) ->
  csv_writes (concat (group_events rt base
                        <$> ((fun k => (k, daily_frame k df)) <$> l)))
  = (fun s => (daily_file rt base s, csv_lines (daily_frame s df)))
      <$> filter (fun s => parses s = true) l.
Proof.
  induction l as [|s l IH]; intros Hcan; [reflexivity|].
  rewrite !fmap_cons, concat_cons, csv_writes_app, IH, filter_cons.
  2:{ intros t Ht. apply Hcan. by right. }
  unfold group_events at 1. simpl.
  destruct (decide (parses s = true)) as [Ep|Ep].
  - destruct (Hcan s) as (d & -> & Hd); [left | done |]. simpl. by rewrite Hd.
  - unfold parses in Ep. by destruct (Datetime.strptime s).
Qed.

(** ** The writer *)

Lemma save_daily_csvs_no_date (io_fault : string -> option exn)
    (df : DataFrame) (rt base : string) (w : world) :
  "date" ∉ columns df ->
  save_daily_csvs io_fault df rt base w
  = mkOutcome (Ret tt) w [Printed (MsgNoDateColumn rt)].
Proof.
  intros H. unfold save_daily_csvs. by rewrite bool_decide_eq_false_2.
Qed.

(** C6.  A frame without a [date] column: [save_daily_csvs] prints its
    error message and returns; it performs no other effect, and the file
    system (directories and files) and the heap are as before. *)
Theorem save_daily_csvs_without_date_column
    (io_fault : string -> option exn) (df : DataFrame) (rt base : string)
    (w : world) :
  "date" ∉ columns df ->
  let o := save_daily_csvs io_fault df rt base w in
  res o = Ret tt
  /\ out o = [Printed (MsgNoDateColumn rt)]
  /\ final o = w
  /\ (forall p, Makedirs p ∉ out o)
  /\ csv_writes (out o) = [].
Proof.
  intros H o. subst o. rewrite save_daily_csvs_no_date by done. simpl.
  split_and!; try done. by intros p ?%list_elem_of_singleton.
Qed.




(** ** The client *)

Lemma execute_request_uninitialized (self : SearchConsoleAPI)
    (pu sd ed : string) (l : loc) (rl : Z) (w : world) :
  service self = None ->
  execute_request self pu sd ed l rl w
  = mkOutcome (Ret DataFrame_new) w [Printed MsgNotInitialized].
Proof. intros H. unfold execute_request. by rewrite H. Qed.

(** With a service, [execute_request] sends one request, with the list at
    [l] after the append, and returns what [answer_of] says. *)
Lemma execute_request_run (self : SearchConsoleAPI) (svc : Resource)
    (pu sd ed : string) (l : loc) (rl : Z) (w : world) :
  service self = Some svc ->
  let dims := dimensions_at l (heap w) in
  let wire := mkWire sd ed dims rl 0 in
  let a := answer_of (searchanalytics_query svc pu wire) dims sd ed in
  execute_request self pu sd ed l rl w
  = mkOutcome (Ret a.1)
      (mkWorld (dirs w) (files w) (heap_after_append l (heap w)))
      (Query pu wire :: a.2).
Proof.
  intros Hsvc dims wire a. subst a wire dims.
  unfold execute_request, dimensions_at, heap_after_append. rewrite Hsvc.
  unfold list_contains, list_append, query_execute, try_except, print.
  unfold mbind, M_bind, mret, M_ret, deref, lift, emit. simpl.
  destruct (bool_decide ("date" ∈ default [] (heap w !! l))) eqn:Hd; simpl.
  - destruct (searchanalytics_query svc pu _) as [[[rs|]]|e]; simpl.
    + unfold reshape.
      destruct (getitem _ _) as [kc|e]; simpl.
      2:{ destruct e; simpl; by destruct w. }
      destruct (setitem_array _ _ _ _) as [df'|e]; simpl.
      2:{ destruct e; simpl; by destruct w. }
      destruct (drop_column _ _) as [df''|e]; simpl.
      2:{ destruct e; simpl; by destruct w. }
      by destruct w.
    + by destruct w.
    + destruct e; simpl; by destruct w.
  - destruct (searchanalytics_query svc pu _) as [[[rs|]]|e]; simpl.
    + unfold reshape.
      destruct (getitem _ _) as [kc|e]; simpl.
      2:{ by destruct e. }
      destruct (setitem_array _ _ _ _) as [df'|e]; simpl.
      2:{ by destruct e. }
      destruct (drop_column _ _) as [df''|e]; simpl.
      2:{ by destruct e. }
      done.
    + done.
    + by destruct e.
Qed.

Lemma dimensions_at_allocated (l : loc) (h : list (list string))
    (v : list string) :
  h !! l = Some v ->
  dimensions_at l h = dimensions_sent v
  /\ heap_after_append l h = <[l := dimensions_sent v]> h.
Proof.
  intros H. unfold dimensions_at, heap_after_append, dimensions_sent.
  rewrite H. simpl. destruct (bool_decide _).
  - rewrite H. split; [done|]. by rewrite list_insert_id.
  - split; [|done]. rewrite list_lookup_insert_eq; [done|].
    by apply lookup_lt_Some in H.
Qed.

Lemma elem_of_queries (evs : list event) (body : wire_request) :
  body ∈ queries evs <-> exists site, Query site body ∈ evs.
Proof.
  unfold queries. rewrite list_elem_of_omap. split.
  - intros ([] & Hin & [= <-]). eauto.
  - intros (site & Hin). by exists (Query site body).
Qed.

Lemma queries_app (a b : list event) :
  queries (a ++ b) = queries a ++ queries b.
Proof. apply omap_app. Qed.

Lemma request_failed_prints (e : exn) (ev : event) :
  ev ∈ request_failed e -> exists m, ev = Printed m.
Proof.
  unfold request_failed. intros H.
  destruct (isinstance e _);
    repeat (apply elem_of_cons in H as [->|H]; [eauto|]);
    by apply elem_of_nil in H.
Qed.

Lemma answer_of_prints (r : result response) (dims : list string)
    (sd ed : string) (ev : event) :
  ev ∈ (answer_of r dims sd ed).2 -> exists m, ev = Printed m.
Proof.
  unfold answer_of.
  destruct r as [[[rs|]]|e]; simpl.
  - destruct (reshape rs dims) as [df|e]; simpl.
    + by intros ?%elem_of_nil.
    + apply request_failed_prints.
  - intros ->%list_elem_of_singleton. eauto.
  - apply request_failed_prints.
Qed.

Lemma queries_prints (evs : list event) :
  (forall ev, ev ∈ evs -> exists m, ev = Printed m) -> queries evs = [].
Proof.
  induction evs as [|ev evs IH]; intros H; [done|].
  destruct (H ev) as [m ->]; [left|]. simpl. apply IH.
  intros ev' ?. apply H. by right.
Qed.

Lemma csv_writes_none (evs : list event) :
  (forall ev, ev ∈ evs -> (exists m, ev = Printed m) \/ exists site b, ev = Query site b) ->
  csv_writes evs = [].
Proof.
  induction evs as [|ev evs IH]; intros H; [done|].
  assert (csv_writes evs = []) as Hr.
  { apply IH. intros ev' ?. apply H. by right. }
  destruct (H ev) as [[m ->]|(site & b & ->)]; [left|..]; simpl; apply Hr.
Qed.

Lemma count_date_elem_of (v : list string) :
  "date" ∈ v <-> (0 < count_date v)%nat.
Proof.
  unfold count_date. induction v as [|x v IH]; simpl.
  - split; [by intros ?%elem_of_nil | lia].
  - rewrite filter_cons, elem_of_cons, IH.
    destruct (decide (x = "date")) as [->|Hne]; simpl; [split; [lia|auto]|].
    split; [intros [?|?]; [congruence|done] | auto].
Qed.

(** After the [if] statement the list has [date], as often as before if it
    had it. *)
Lemma count_date_dimensions_sent (v : list string) :
  count_date (dimensions_sent v) = Nat.max 1 (count_date v).
Proof.
  unfold dimensions_sent. destruct (bool_decide ("date" ∈ v)) eqn:E.
  - apply bool_decide_eq_true in E. apply count_date_elem_of in E. lia.
  - apply bool_decide_eq_false in E.
    assert (count_date v = 0%nat) as Hz.
    { destruct (count_date v) eqn:Ec; [done|]. destruct E.
      apply count_date_elem_of. lia. }
    unfold count_date in *. rewrite filter_app, length_app, Hz. done.
Qed.

(** C2, amended.  When the caller's list holds [date] at most once (none of
    the seven report definitions holds it), the one request sent carries
    the list with [date] exactly once: the caller's list itself if it had
    [date], and with [date] added at its end if not. *)
Theorem execute_request_sends_date_once
    (self : SearchConsoleAPI) (svc : Resource) (pu sd ed : string) (l : loc)
    (rl : Z) (w : world) (v : list string) :
  service self = Some svc ->
  heap w !! l = Some v ->
  (count_date v <= 1)%nat ->
  exists body,
    queries (out (execute_request self pu sd ed l rl w)) = [body]
    /\ count_date (dimensions body) = 1%nat
    /\ dimensions body = if bool_decide ("date" ∈ v) then v else v ++ ["date"].
Proof.
  intros Hsvc Hl Hc. rewrite (execute_request_run self svc) by done.
  destruct (dimensions_at_allocated l (heap w) v Hl) as [-> _]. simpl.
  eexists. split_and!.
  - f_equal. apply queries_prints. intros ev. apply answer_of_prints.
  - simpl. rewrite count_date_dimensions_sent. lia.
  - done.
Qed.

Lemma execute_request_returns (self : SearchConsoleAPI) (pu sd ed : string)
    (l : loc) (rl : Z) (w : world) :
  exists df, res (execute_request self pu sd ed l rl w) = Ret df.
Proof.
  destruct (service self) as [svc|] eqn:E.
  - rewrite (execute_request_run self svc) by done. eauto.
  - rewrite execute_request_uninitialized by done. eauto.
Qed.

(** [execute_request] touches neither files nor directories, and keeps
    every list but the one at [l]. *)
Lemma execute_request_frame (self : SearchConsoleAPI) (pu sd ed : string)
    (l : loc) (rl : Z) (w : world) :
  let o := execute_request self pu sd ed l rl w in
  dirs (final o) = dirs w /\ files (final o) = files w
  /\ length (heap (final o)) = length (heap w)
  /\ (forall k, k <> l -> heap (final o) !! k = heap w !! k)
  /\ (forall ev, ev ∈ out o ->
        (exists m, ev = Printed m) \/ exists b, ev = Query pu b /\ rowLimit b = rl).
Proof.
  destruct (service self) as [svc|] eqn:E; simpl.
  - rewrite (execute_request_run self svc) by done. simpl.
    unfold heap_after_append. split_and!; try done.
    + destruct (bool_decide _); [done | by rewrite length_insert].
    + intros k Hk. destruct (bool_decide _); [done|].
      by rewrite list_lookup_insert_ne.
    + intros ev [->|H]%elem_of_cons; [eauto|].
      left. by apply answer_of_prints in H.
  - rewrite execute_request_uninitialized by done. simpl.
    split_and!; try done.
    intros ev ->%list_elem_of_singleton. eauto.
Qed.

Lemma reshape_no_rows (key : list string) : reshape [] key = Raise KeyError.
Proof. reflexivity. Qed.

(** C4.  [execute_request] returns a table on every input, so nothing is
    raised to the caller, and sends at most one request.  It returns the
    empty table when the handle is not initialised (and then sends nothing),
    when the request raises any exception, and when the response has no
    [rows] entry or an empty one.  In [main], a report whose query returned
    an empty table gets no directory and no file. *)
Theorem execute_request_failures_give_empty_table :
  (forall (self : SearchConsoleAPI) (pu sd ed : string) (l : loc) (rl : Z)
          (w : world),
     let o := execute_request self pu sd ed l rl w in
     (exists df, res o = Ret df)
     /\ (length (queries (out o)) <= 1)%nat
     /\ (service self = None ->
         res o = Ret DataFrame_new /\ queries (out o) = [])
     /\ (forall svc body, service self = Some svc ->
           queries (out o) = [body] ->
           match searchanalytics_query svc pu body with
           | Raise _ => res o = Ret DataFrame_new
           | Ret resp =>
               rows resp = None \/ rows resp = Some [] ->
               res o = Ret DataFrame_new
           end))
  /\ (forall (io_fault : string -> option exn) (args : Args)
            (self : SearchConsoleAPI) (name : string) (l : loc) (w : world)
            (df : DataFrame),
        let w1 := mkWorld (dirs w) (files w)
                    (heap w ++ [default [] (heap w !! l)]) in
        res (execute_request self (property args) (start args) (end_ args)
               (length (heap w)) (limit args) w1) = Ret df ->
        df_empty df = true ->
        let o := run_report io_fault args self (name, l) w in
        res o = Ret tt
        /\ csv_writes (out o) = []
        /\ (forall p, Makedirs p ∉ out o)
        /\ files (final o) = files w
        /\ dirs (final o) = dirs w).
Proof.
  split.
  - intros self pu sd ed l rl w o. subst o.
    destruct (service self) as [svc|] eqn:E.
    + rewrite (execute_request_run self svc) by done. simpl.
      rewrite (queries_prints _ (answer_of_prints _ _ _ _)).
      split_and!; [eauto | done | done |].
      intros svc' body [= <-] [= <-].
      destruct (searchanalytics_query svc pu _) as [[[rs|]]|e]; simpl; [|done..].
      intros [[=]|[= ->]]. by rewrite reshape_no_rows.
    + rewrite execute_request_uninitialized by done. simpl.
      split_and!; [eauto | lia | done | done].
  - intros io_fault args self name l w df w1 Hres Hempty o. subst o.
    pose proof (execute_request_frame self (property args) (start args)
                  (end_ args) (length (heap w)) (limit args) w1)
      as (Hd & Hf & _ & _ & Hev).
    unfold run_report, list_copy, new_list, print.
    unfold mbind, M_bind, mret, M_ret, deref, emit. simpl.
    fold w1. rewrite Hres, Hempty. simpl. rewrite Hd, Hf.
    split_and!; try done.
    + rewrite csv_writes_app. simpl. rewrite app_nil_r.
      apply csv_writes_none. intros ev Hin.
      destruct (Hev ev Hin) as [?|(b & -> & _)]; eauto.
    + intros p [[=]|[Hin|Hin]%elem_of_app]%elem_of_cons.
      * apply Hev in Hin as [[m [=]]|(b & [=] & _)].
      * by apply list_elem_of_singleton in Hin.
Qed.

(** ** The orchestrator *)

Lemma for_each_final_invariant {A : Type} (P : world -> Prop)
    (body : A -> M unit) (l : list A) (w : world) :
  (forall x w', P w' -> P (final (body x w'))) ->
  P w -> P (final (for_each l body w)).
Proof.
  intros Hbody. revert w. induction l as [|x l IH]; intros w Hw; [done|].
  rewrite for_each_cons, bind_run.
  destruct (res (body x w)); simpl; auto.
Qed.

Lemma save_group_heap (io_fault : string -> option exn) (rt base : string)
    (g : string * DataFrame) (w : world) :
  heap (final (save_group io_fault rt base g w)) = heap w.
Proof.
  destruct g as [s g]. unfold save_group, try_except. rewrite !bind_run.
  unfold lift, os_makedirs, to_csv. simpl.
  destruct (Datetime.strptime s) as [d|e] eqn:Es; simpl.
  - destruct (io_fault (os_path_join base rt)) as [e|]; simpl.
    { by destruct e. }
    destruct (io_fault _) as [e|]; simpl; [by destruct e | done].
  - by destruct e.
Qed.

(** [save_daily_csvs] returns, keeps the heap and sends no request. *)
Lemma save_daily_csvs_frame (io_fault : string -> option exn) (df : DataFrame)
    (rt base : string) (w : world) :
  let o := save_daily_csvs io_fault df rt base w in
  res o = Ret tt /\ heap (final o) = heap w
  /\ (forall site b, Query site b ∉ out o).
Proof.
  destruct (decide ("date" ∈ columns df)) as [Hd|Hd]; simpl.
  - rewrite save_daily_csvs_run by done. simpl. split_and!; [done|..].
    + apply (for_each_final_invariant (fun w' => heap w' = heap w)); [|done].
      intros x w' <-. apply save_group_heap.
    + intros site b [[=]|[Hin|Hin]%elem_of_app]%elem_of_cons.
      * apply for_each_out_elem_of in Hin as ([s g] & w' & _ & Hin).
        by apply save_group_out in Hin.
      * by apply list_elem_of_singleton in Hin.
  - rewrite save_daily_csvs_no_date by done. simpl.
    split_and!; [done..|]. by intros site b ?%list_elem_of_singleton.
Qed.

(** One report: the copy is made at the end of the heap and the query is
    run on it. *)
Lemma run_report_run (io_fault : string -> option exn) (args : Args)
    (self : SearchConsoleAPI) (name : string) (l : loc) (w : world) :
  let w1 := mkWorld (dirs w) (files w) (heap w ++ [default [] (heap w !! l)]) in
  let o1 := execute_request self (property args) (start args) (end_ args)
              (length (heap w)) (limit args) w1 in
  exists df, res o1 = Ret df /\
    let o2 := (if negb (df_empty df)
               then save_daily_csvs io_fault df name (output_dir args)
               else print (MsgNoDataReturned name)) (final o1) in
    run_report io_fault args self (name, l) w
    = mkOutcome (res o2) (final o2)
        (Printed (MsgFetching name (start args) (end_ args)) :: out o1 ++ out o2).
Proof.
  intros w1 o1.
  destruct (execute_request_returns self (property args) (start args)
              (end_ args) (length (heap w)) (limit args) w1) as [df Hdf].
  exists df. split; [done|].
  unfold run_report, list_copy, new_list, print.
  unfold mbind, M_bind, mret, M_ret, deref, emit. simpl.
  fold w1. by rewrite Hdf.
Qed.

Lemma run_report_frame (io_fault : string -> option exn) (args : Args)
    (self : SearchConsoleAPI) (item : string * loc) (w : world) :
  let o := run_report io_fault args self item w in
  res o = Ret tt
  /\ (length (heap w) <= length (heap (final o)))%nat
  /\ (forall k, (k < length (heap w))%nat -> heap (final o) !! k = heap w !! k)
  /\ (forall site b, Query site b ∈ out o -> rowLimit b = limit args).
Proof.
  destruct item as [name l]. intros o. subst o.
  destruct (run_report_run io_fault args self name l w) as (df & Hdf & ->).
  pose proof (execute_request_frame self (property args) (start args)
                (end_ args) (length (heap w)) (limit args)
                (mkWorld (dirs w) (files w)
                   (heap w ++ [default [] (heap w !! l)])))
    as (_ & _ & Hlen & Hk & Hev).
  simpl in *. rewrite length_app in Hlen. simpl in Hlen.
  set (o1 := execute_request _ _ _ _ _ _ _) in *.
  assert (Hsave : forall o2 : outcome unit,
            o2 = (if negb (df_empty df)
                  then save_daily_csvs io_fault df name (output_dir args)
                  else print (MsgNoDataReturned name)) (final o1) ->
            res o2 = Ret tt /\ heap (final o2) = heap (final o1)
            /\ (forall site b, Query site b ∉ out o2)).
  { intros o2 ->. destruct (negb (df_empty df)).
    - apply save_daily_csvs_frame.
    - split_and!; [done..|]. by intros site b ?%list_elem_of_singleton. }
  destruct (Hsave _ eq_refl) as (Hres & Hheap & Hq).
  split_and!.
  - done.
  - rewrite Hheap. lia.
  - intros k Hlt. rewrite Hheap, Hk by lia. by apply lookup_app_l.
  - intros site b [[=]|[Hin|Hin]%elem_of_app]%elem_of_cons.
    + apply Hev in Hin as [[m [=]]|(b' & [= _ <-] & ?)]. done.
    + by apply Hq in Hin.
Qed.

Lemma make_reports_run (defs : list (string * list string)) (w : world) :
  make_reports defs w
  = mkOutcome (Ret (report_items (length (heap w)) defs))
      (mkWorld (dirs w) (files w) (heap w ++ defs.*2)) [].
Proof.
  revert w. induction defs as [|[name dims] defs IH]; intros w.
  - simpl. rewrite app_nil_r. by destruct w.
  - simpl. unfold mbind, M_bind, mret, M_ret, new_list. simpl.
    rewrite IH. simpl. rewrite length_app, Nat.add_1_r, <- app_assoc. done.
Qed.

Section Orchestrator.

Variable Credentials : Type.
Variable from_service_account_file : string -> list string -> result Credentials.
Variable build : string -> string -> Credentials -> result Resource.
Variable io_fault : string -> option exn.

Lemma _authenticate_run (file : string) (scopes : list string) (w : world) :
  _authenticate Credentials from_service_account_file build file scopes w
  = mkOutcome
      (Ret (handle_of Credentials from_service_account_file build file scopes))
      w
      (authentication_events Credentials from_service_account_file build
         file scopes).
Proof.
  unfold _authenticate, try_except, handle_of, authentication_events,
    authentication_failed, print.
  unfold mbind, M_bind, mret, M_ret, lift, emit. simpl.
  destruct (from_service_account_file file scopes) as [c|e]; simpl.
  - destruct (build _ _ c) as [r|e]; simpl; [done|].
    destruct e; simpl; by destruct w.
  - destruct e; simpl; by destruct w.
Qed.

Lemma main_run (args : Args) (w : world) :
  let w0 := mkWorld (dirs w) (files w) (heap w ++ report_definitions.*2) in
  let evs := authentication_events Credentials from_service_account_file
               build (sa_file args) SCOPES in
  main Credentials from_service_account_file build io_fault args w
  = match handle_of Credentials from_service_account_file build
            (sa_file args) SCOPES with
    | None => mkOutcome (Ret tt) w0 (evs ++ [Printed MsgFailedInit])
    | Some svc =>
        let loop :=
          for_each (report_items (length (heap w)) report_definitions)
            (run_report io_fault args (mkAPI (sa_file args) SCOPES (Some svc)))
            w0 in
        mkOutcome (res loop) (final loop) (evs ++ out loop)
    end.
Proof.
  intros w0 evs. unfold main, __init__.
  rewrite bind_run, make_reports_run. cbn [res final out app].
  rewrite !bind_run, _authenticate_run. cbn [res final out app mret M_ret].
  destruct (handle_of _ _ _ _ _); cbn [res final out app service];
    by rewrite app_nil_r.
Qed.

End Orchestrator.

Lemma report_items_lookup (n : nat) (defs : list (string * list string))
    (item : string * loc) :
  item ∈ report_items n defs ->
  exists i name dims, defs !! i = Some (name, dims) /\ item = (name, (n + i)%nat).
Proof.
  revert n. induction defs as [|[name dims] defs IH]; intros n; simpl.
  - by intros ?%elem_of_nil.
  - intros [->|Hin]%elem_of_cons.
    + exists 0%nat, name, dims. split; [done|]. by rewrite Nat.add_0_r.
    + destruct (IH _ Hin) as (i & name' & dims' & Hi & ->).
      exists (S i), name', dims'. split; [done|]. f_equal. lia.
Qed.

(** C7.  When the key file is missing, that is when the credential loader
    raises [FileNotFoundError], [_authenticate] prints the path and returns
    no handle, and [main] ends after the three messages: it sends no
    request, creates no directory and writes no file. *)
Theorem main_missing_key_file
    (Credentials : Type)
    (from_service_account_file : string -> list string -> result Credentials)
    (build : string -> string -> Credentials -> result Resource)
    (io_fault : string -> option exn) (args : Args) (w : world) :
  from_service_account_file (sa_file args) SCOPES = Raise FileNotFoundError ->
  _authenticate Credentials from_service_account_file build (sa_file args)
    SCOPES w
  = mkOutcome (Ret None) w
      [Printed (MsgKeyFileNotFound (sa_file args)); Printed MsgCheckPath]
  /\ let o := main Credentials from_service_account_file build io_fault
                args w in
     res o = Ret tt
     /\ out o = [Printed (MsgKeyFileNotFound (sa_file args)); Printed MsgCheckPath;
                 Printed MsgFailedInit]
     /\ queries (out o) = []
     /\ csv_writes (out o) = []
     /\ files (final o) = files w
     /\ dirs (final o) = dirs w.
Proof.
  intros Hmissing. split.
  - rewrite _authenticate_run. unfold handle_of, authentication_events.
    by rewrite Hmissing.
  - intros o. subst o. rewrite main_run.
    unfold handle_of, authentication_events. rewrite Hmissing. done.
Qed.

(** C8, amended.  Every request [main] sends carries the [--limit] argument
    as its [rowLimit], unchanged; so the row limit of every request is at
    most 25000 whenever the argument is (the default is 25000). *)
Theorem main_row_limit_is_the_limit_argument
    (Credentials : Type)
    (from_service_account_file : string -> list string -> result Credentials)
    (build : string -> string -> Credentials -> result Resource)
    (io_fault : string -> option exn) (args : Args) (w : world) :
  let o := main Credentials from_service_account_file build io_fault args w in
  Forall (fun body => rowLimit body = limit args) (queries (out o))
  /\ (limit args <= 25000 ->
      Forall (fun body => rowLimit body <= 25000) (queries (out o))).
Proof.
  intros o.
  assert (H : Forall (fun body => rowLimit body = limit args) (queries (out o))).
  { subst o. rewrite main_run. apply Forall_forall. intros body.
    rewrite elem_of_queries. intros [site Hin].
    assert (Hauth : forall ev,
              ev ∈ authentication_events Credentials from_service_account_file
                     build (sa_file args) SCOPES -> exists m, ev = Printed m).
    { intros ev. unfold authentication_events, authentication_failed.
      intros Hev.
      destruct (from_service_account_file _ _) as [c|e];
        [destruct (build _ _ c) as [r|e]|];
        try destruct (isinstance e _);
        repeat (apply elem_of_cons in Hev as [->|Hev]; [eauto|]);
        by apply elem_of_nil in Hev. }
    destruct (handle_of _ _ _ _ _) as [svc|]; cbn [out] in Hin.
    - apply elem_of_app in Hin as [Hin|Hin].
      { by destruct (Hauth _ Hin). }
      apply for_each_out_elem_of in Hin as (item & w' & _ & Hin).
      by apply run_report_frame in Hin.
    - apply elem_of_app in Hin as [Hin|Hin].
      { by destruct (Hauth _ Hin). }
      by apply list_elem_of_singleton in Hin. }
  split; [done|]. intros Hle. eapply Forall_impl; [exact H|].
  simpl. intros body ->. done.
Qed.

(** C9, amended.  With an initialised handle, [execute_request] appends
    [date] to the list object the caller passed when the list lacks it: the
    list at the caller's location is one element longer after the call, and
    no other list changes.  With an uninitialised handle the call returns
    before it looks at the list, and the heap is as before.  [main] passes a
    copy: after the run, the list of every report definition is as the
    definition gives it. *)
Theorem execute_request_appends_date_in_place :
  (forall (self : SearchConsoleAPI) (svc : Resource) (pu sd ed : string)
          (l : loc) (rl : Z) (w : world) (v : list string),
     service self = Some svc ->
     heap w !! l = Some v ->
     "date" ∉ v ->
     let o := execute_request self pu sd ed l rl w in
     heap (final o) !! l = Some (v ++ ["date"])
     /\ length (v ++ ["date"]) = S (length v)
     /\ (forall k, k <> l -> heap (final o) !! k = heap w !! k))
  /\ (forall (self : SearchConsoleAPI) (pu sd ed : string) (l : loc) (rl : Z)
            (w : world),
        service self = None ->
        heap (final (execute_request self pu sd ed l rl w)) = heap w)
  /\ (forall (Credentials : Type)
            (from_service_account_file :
               string -> list string -> result Credentials)
            (build : string -> string -> Credentials -> result Resource)
            (io_fault : string -> option exn) (args : Args) (w : world)
            (i : nat) (name : string) (dims : list string),
        report_definitions !! i = Some (name, dims) ->
        heap (final (main Credentials from_service_account_file build
                       io_fault args w)) !! (length (heap w) + i)%nat
        = Some dims).
Proof.
  split_and!.
  - intros self svc pu sd ed l rl w v Hsvc Hl Hdate o. subst o.
    rewrite (execute_request_run self svc) by done. simpl.
    destruct (dimensions_at_allocated l (heap w) v Hl) as [_ ->].
    unfold dimensions_sent. rewrite bool_decide_eq_false_2 by done.
    split_and!.
    + apply list_lookup_insert_eq. by apply lookup_lt_Some in Hl.
    + rewrite length_app. simpl. lia.
    + intros k Hk. by apply list_lookup_insert_ne.
  - intros self pu sd ed l rl w Hsvc.
    by rewrite execute_request_uninitialized.
  - intros C fsaf build io_fault args w i name dims Hi.
    rewrite main_run.
    set (h0 := heap w ++ report_definitions.*2).
    assert (Hh0 : h0 !! (length (heap w) + i)%nat = Some dims).
    { subst h0. rewrite lookup_app_r by lia.
      replace (length (heap w) + i - length (heap w))%nat with i by lia.
      rewrite list_lookup_fmap, Hi. done. }
    destruct (handle_of _ _ _ _ _) as [svc|]; cbn [final heap]; [|done].
    pose proof (for_each_final_invariant
             (fun w' => (length h0 <= length (heap w'))%nat
                        /\ forall k, (k < length h0)%nat ->
                                     heap w' !! k = h0 !! k)
             (run_report io_fault args (mkAPI (sa_file args) SCOPES (Some svc)))
             (report_items (length (heap w)) report_definitions)
             (mkWorld (dirs w) (files w) h0)) as Hinv.
    destruct Hinv as [_ Hk].
    + intros item w' [Hlen Hk].
      destruct (run_report_frame io_fault args
                  (mkAPI (sa_file args) SCOPES (Some svc)) item w')
        as (_ & Hlen' & Hk' & _).
      split; [lia|]. intros k Hlt. rewrite Hk' by lia. by apply Hk.
    + done.
    + rewrite Hk; [done|]. by apply lookup_lt_Some in Hh0.
Qed.

(** ** The columns of a reshaped answer *)

Lemma column_index_not_elem_of (name : string) (df : DataFrame) :
  name ∉ columns df -> column_index name df = None.
Proof.
  intros H. unfold column_index.
  destruct (list_find _ _) as [[i x]|] eqn:E; [|done].
  apply list_find_Some in E as (Hi & -> & _).
  destruct H. by apply list_elem_of_lookup_2 in Hi.
Qed.

Lemma setitem_new_column (df : DataFrame) (name : string) (values : list cell) :
  name ∉ columns df -> columns (setitem df name values) = columns df ++ [name].
Proof.
  intros H. unfold setitem. by rewrite column_index_not_elem_of.
Qed.

Lemma setitem_pairs_columns (value : list (list cell)) (key : list string)
    (idxs : list nat) (df : DataFrame) :
  length idxs = length key ->
  NoDup key ->
  (forall c, c ∈ key -> c ∉ columns df) ->
  columns
    (foldl (fun acc '(k1, k2) =>
              setitem acc k1 ((fun row => default NA (row !! k2)) <$> value))
       df (zip key idxs))
  = columns df ++ key.
Proof.
  revert idxs df. induction key as [|k key IH]; intros idxs df Hlen Hnd Hnew.
  - simpl. by rewrite app_nil_r.
  - destruct idxs as [|i idxs]; [done|]. simpl in Hlen.
    apply NoDup_cons in Hnd as [Hk Hnd]. simpl.
    rewrite IH.
    + rewrite setitem_new_column by (apply Hnew; left).
      by rewrite <- app_assoc.
    + lia.
    + done.
    + intros c Hc. rewrite setitem_new_column by (apply Hnew; left).
      intros [Hin|Hin%list_elem_of_singleton]%elem_of_app.
      * by apply (Hnew c); [right|].
      * by subst.
Qed.

(** The reshaped table has the metrics first and then the dimensions of
    the request, in their order. *)
Lemma reshape_columns (rs : list api_row) (key : list string) (df : DataFrame) :
  reshape rs key = Ret df ->
  NoDup key ->
  (forall c, c ∈ key -> c ∉ record_columns) ->
  columns df = metric_columns ++ key.
Proof.
  intros Hr Hnd Hnew. unfold reshape in Hr.
  destruct rs as [|r rs]; [done|].
  change (DataFrame_of_records (r :: rs))
    with (mkDataFrame record_columns (record_cells <$> (r :: rs))) in Hr.
  destruct (getitem _ _) as [kc|e]; [|done].
  unfold setitem_array in Hr.
  destruct (bool_decide _) eqn:Hw; [|done].
  apply bool_decide_eq_true in Hw.
  unfold drop_column in Hr.
  set (df' := foldl _ _ _) in Hr.
  assert (Hcols : columns df' = record_columns ++ key).
  { subst df'. apply (setitem_pairs_columns _ key (seq 0 _)); [|done..].
    by rewrite length_seq. }
  unfold column_index in Hr. rewrite Hcols in Hr. simpl in Hr.
  by injection Hr as <-.
Qed.

Lemma save_daily_csvs_headers (io_fault : string -> option exn)
    (df : DataFrame) (rt base : string) (w : world) (p : string)
    (c : list (list cell)) :
  ToCsv p c ∈ out (save_daily_csvs io_fault df rt base w) ->
  exists s, c = (Str <$> columns df) :: rows_on s df.
Proof.
  destruct (decide ("date" ∈ columns df)) as [Hd|Hd].
  - rewrite save_daily_csvs_run by done. simpl.
    intros [[=]|[Hin|Hin]%elem_of_app]%elem_of_cons.
    + apply for_each_out_elem_of in Hin as ([s g] & w' & Hg & Hin).
      apply list_elem_of_fmap in Hg as (k & [= -> ->] & Hk).
      apply save_group_out in Hin as (d & _ & _ & _ & ->). by exists k.
    + by apply list_elem_of_singleton in Hin.
  - rewrite save_daily_csvs_no_date by done. simpl.
    by intros ?%list_elem_of_singleton.
Qed.

(** C3, amended.  For a query that returned a table with rows, sent with
    dimensions that are pairwise different and none of which is called like
    a field of the response rows, the columns of the table are the metrics
    (clicks, impressions, ctr, position) followed by the dimensions of the
    request in request order; and every daily file written from the table
    starts with a header row of these column names. *)
Theorem execute_request_columns_metrics_then_dimensions
    (self : SearchConsoleAPI) (svc : Resource) (pu sd ed : string) (l : loc)
    (rl : Z) (w : world) (v : list string) (df : DataFrame)
    (body : wire_request) :
  service self = Some svc ->
  heap w !! l = Some v ->
  res (execute_request self pu sd ed l rl w) = Ret df ->
  df_empty df = false ->
  queries (out (execute_request self pu sd ed l rl w)) = [body] ->
  NoDup (dimensions body) ->
  (forall c, c ∈ dimensions body -> c ∉ record_columns) ->
  columns df = metric_columns ++ dimensions body
  /\ forall (io_fault : string -> option exn) (rt base : string) (w' : world)
       (p : string) (c : list (list cell)),
       ToCsv p c ∈ out (save_daily_csvs io_fault df rt base w') ->
       head c = Some (Str <$> (metric_columns ++ dimensions body)).
Proof.
  intros Hsvc Hl Hres Hne Hq Hnd Hnew.
  rewrite (execute_request_run self svc) in Hres, Hq by done.
  simpl in Hres, Hq.
  rewrite (queries_prints _ (answer_of_prints _ _ _ _)) in Hq.
  injection Hq as <-. simpl in *.
  injection Hres as Hres.
  assert (Hcols : columns df = metric_columns ++ dimensions_at l (heap w)).
  { unfold answer_of in Hres.
    destruct (searchanalytics_query svc pu _) as [[[rs|]]|e]; simpl in Hres;
      try (subst df; done).
    destruct (reshape rs _) as [df'|e] eqn:Hr; simpl in Hres;
      [|subst df; done].
    subst df'. by apply (reshape_columns rs). }
  split; [done|].
  intros io_fault rt base w' p c Hin.
  apply save_daily_csvs_headers in Hin as [s ->]. simpl. by rewrite Hcols.
Qed.

(** ** The tables of [execute_request] are flat *)

Lemma flat_flat_table (df : DataFrame) : flat df -> flat_table df = true.
Proof.
  intros (Hnd & Hrect & Hdate). unfold flat_table.
  rewrite bool_decide_eq_true_2 by done. simpl.
  apply andb_true_intro. split.
  - apply forallb_forall. intros row Hin%list_elem_of_In.
    apply bool_decide_eq_true_2. rewrite Forall_forall in Hrect. by apply Hrect.
  - unfold column_index.
    destruct (list_find _ _) as [[i x]|] eqn:E; simpl; [|done].
    apply list_find_Some in E as (Hi & -> & _).
    apply forallb_forall. intros row Hin%list_elem_of_In.
    specialize (Hdate i Hi). rewrite Forall_forall in Hdate.
    by destruct (Hdate row Hin) as (c & -> & ?).
Qed.

Lemma column_index_lookup (name : string) (df : DataFrame) (i : nat) :
  column_index name df = Some i -> columns df !! i = Some name.
Proof.
  unfold column_index. destruct (list_find _ _) as [[j x]|] eqn:E; [|done].
  intros [= <-]. by apply list_find_Some in E as (? & -> & _).
Qed.

Lemma column_index_None_not_elem_of (name : string) (df : DataFrame) :
  column_index name df = None -> name ∉ columns df.
Proof.
  intros H Hin. apply column_index_elem_of in Hin as (i & Hi & _). congruence.
Qed.

(** Assigning a column of text keeps a frame flat. *)
Lemma setitem_flat (df : DataFrame) (name : string) (values : list cell) :
  flat df -> Forall (fun c => textual c = true) values ->
  flat (setitem df name values).
Proof.
  intros (Hnd & Hrect & Hdate) Hvals. unfold setitem.
  destruct (column_index name df) as [i|] eqn:E; simpl.
  - apply column_index_lookup in E.
    split_and!; simpl; [done|..].
    + eapply Forall_zip_with_fst; [exact Hrect|].
      apply Forall_forall. intros v _ row Hrow. by rewrite length_insert.
    + intros j Hj.
      assert (Hrows : Forall (fun row =>
                length row = length (columns df)
                /\ (j <> i -> exists c, row !! j = Some c /\ textual c = true))
                (data df)).
      { apply Forall_forall. intros row Hin. rewrite Forall_forall in Hrect.
        split; [by apply Hrect|]. intros Hne.
        specialize (Hdate j Hj). rewrite Forall_forall in Hdate. by apply Hdate. }
      eapply Forall_zip_with_fst; [exact Hrows|].
      eapply Forall_impl; [exact Hvals|]. simpl.
      intros v Hv row [Hlen Hold].
      destruct (decide (j = i)) as [->|Hne].
      * exists v. split; [|done]. apply list_lookup_insert_eq.
        rewrite Hlen. by apply lookup_lt_Some in E.
      * rewrite list_lookup_insert_ne by done. by apply Hold.
  - apply column_index_None_not_elem_of in E.
    split_and!; simpl.
    + apply NoDup_app. split_and!; [done| |apply NoDup_singleton].
      intros x Hx ->%list_elem_of_singleton. done.
    + eapply Forall_zip_with_fst; [exact Hrect|].
      apply Forall_forall. intros v _ row Hrow.
      rewrite !length_app, Hrow. done.
    + intros j Hj.
      assert (Hrows : Forall (fun row =>
                length row = length (columns df)
                /\ ((j < length (columns df))%nat ->
                    exists c, row !! j = Some c /\ textual c = true))
                (data df)).
      { apply Forall_forall. intros row Hin. rewrite Forall_forall in Hrect.
        split; [by apply Hrect|]. intros Hlt.
        rewrite lookup_app_l in Hj by done.
        specialize (Hdate j Hj). rewrite Forall_forall in Hdate. by apply Hdate. }
      eapply Forall_zip_with_fst; [exact Hrows|].
      eapply Forall_impl; [exact Hvals|]. simpl.
      intros v Hv row [Hlen Hold].
      destruct (decide (j < length (columns df))%nat) as [Hlt|Hge].
      * rewrite lookup_app_l by lia. by apply Hold.
      * assert (j = length (columns df)) as ->.
        { apply lookup_lt_Some in Hj. rewrite length_app in Hj. simpl in Hj. lia. }
        exists v. split; [|done]. rewrite <- Hlen. apply list_lookup_middle. done.
Qed.

Lemma setitem_pairs_flat (value : list (list cell)) (pairs : list (string * nat))
    (df : DataFrame) :
  flat df ->
  Forall (Forall (fun c => textual c = true)) value ->
  flat (foldl (fun acc '(k1, k2) =>
                 setitem acc k1 ((fun row => default NA (row !! k2)) <$> value))
          df pairs).
Proof.
  intros Hdf Hvalue. revert df Hdf.
  induction pairs as [|[k1 k2] pairs IH]; intros df Hdf; [done|].
  simpl. apply IH. apply setitem_flat; [done|].
  apply Forall_fmap. eapply Forall_impl; [exact Hvalue|]. simpl.
  intros row Hrow. destruct (row !! k2) as [c|] eqn:E; simpl; [|done].
  rewrite Forall_forall in Hrow. apply Hrow. by eapply list_elem_of_lookup_2.
Qed.

(** Dropping a column other than [date] keeps a frame flat. *)
Lemma drop_column_flat (df df' : DataFrame) (name : string) :
  name <> "date" -> flat df -> drop_column df name = Ret df' -> flat df'.
Proof.
  intros Hname (Hnd & Hrect & Hdate). unfold drop_column.
  destruct (column_index name df) as [i|] eqn:E; [|done].
  apply column_index_lookup in E. intros [= <-].
  assert (Hi : (i < length (columns df))%nat) by by apply lookup_lt_Some in E.
  split_and!; simpl.
  - eapply sublist_NoDup; [exact Hnd | apply sublist_delete].
  - apply Forall_fmap. eapply Forall_impl; [exact Hrect|]. simpl.
    intros row Hrow. rewrite !length_delete; [by rewrite Hrow|..].
    + by rewrite E.
    + apply lookup_lt_is_Some. lia.
  - intros j Hj. apply Forall_fmap.
    destruct (decide (j < i)%nat) as [Hlt|Hge].
    + rewrite list_lookup_delete_lt in Hj by done.
      eapply Forall_impl; [exact (Hdate j Hj)|]. simpl.
      intros row Hrow. by rewrite list_lookup_delete_lt.
    + rewrite list_lookup_delete_ge in Hj by lia.
      eapply Forall_impl; [exact (Hdate (S j) Hj)|]. simpl.
      intros row Hrow. rewrite list_lookup_delete_ge by lia. done.
Qed.

Lemma reshape_flat (rs : list api_row) (key : list string) (df : DataFrame) :
  reshape rs key = Ret df -> flat df.
Proof.
  unfold reshape. destruct rs as [|r rs]; [done|].
  change (DataFrame_of_records (r :: rs))
    with (mkDataFrame record_columns (record_cells <$> (r :: rs))).
  destruct (getitem _ _) as [kc|e]; [|done].
  unfold setitem_array. destruct (bool_decide _); [|done].
  apply drop_column_flat; [done|].
  apply setitem_pairs_flat.
  - split_and!; cbn [columns data].
    + apply (bool_decide_unpack _). vm_compute. exact I.
    + apply Forall_fmap, Forall_forall. by intros row _.
    + intros i Hi. exfalso.
      do 5 (destruct i as [|i]; [done|]). done.
  - unfold DataFrame_of_lists. apply Forall_fmap, Forall_forall.
    intros l _. simpl. apply Forall_app. split.
    + apply Forall_fmap, Forall_forall. by intros s _.
    + apply Forall_replicate. done.
Qed.

(** Every table [execute_request] returns is a flat table. *)
Lemma execute_request_flat_table (self : SearchConsoleAPI) (pu sd ed : string)
    (l : loc) (rl : Z) (w : world) (df : DataFrame) :
  res (execute_request self pu sd ed l rl w) = Ret df -> flat_table df = true.
Proof.
  destruct (service self) as [svc|] eqn:E.
  - rewrite (execute_request_run self svc) by done. simpl. intros [= <-].
    unfold answer_of.
    destruct (searchanalytics_query svc pu _) as [[[rs|]]|e]; simpl; [|done..].
    destruct (reshape rs _) as [df|e] eqn:Hr; simpl; [|done].
    eapply flat_flat_table, reshape_flat, Hr.
  - rewrite execute_request_uninitialized by done. by intros [= <-].
Qed.

(** ** The properties on the sample inputs *)

Ltac by_computation := apply (bool_decide_unpack _); vm_compute; exact I.

Lemma save_daily_csvs_without_date_column_witness :
  out (save_daily_csvs Sample.no_fault Sample.without_date "query" "out"
         Sample.world0)
  = [Printed (MsgNoDateColumn "query")]
  /\ final (save_daily_csvs Sample.no_fault Sample.without_date "query" "out"
              Sample.world0)
     = Sample.world0.
Proof.
  destruct (save_daily_csvs_without_date_column Sample.no_fault
              Sample.without_date "query" "out" Sample.world0)
    as (_ & Hout & Hfinal & _).
  - by_computation.
  - split; [exact Hout | exact Hfinal].
Defined.

Lemma two_days_dates : date_values Sample.two_days = ["2024-01-01"; "2024-01-02"].
Proof. vm_compute. reflexivity. Qed.



Lemma execute_request_sends_date_once_witness :
  exists body,
    queries (out (execute_request (Sample.client (Some Sample.answering))
                    "sc-domain:example.com" "2024-01-01" "2024-01-02" 0%nat
                    25000 (Sample.world_with ["query"])))
    = [body]
    /\ count_date (dimensions body) = 1%nat
    /\ dimensions body = ["query"; "date"].
Proof.
  apply (execute_request_sends_date_once
           (Sample.client (Some Sample.answering)) Sample.answering
           "sc-domain:example.com" "2024-01-01" "2024-01-02" 0%nat 25000
           (Sample.world_with ["query"]) ["query"]).
  - reflexivity.
  - reflexivity.
  - by_computation.
Defined.

(** C2 as stated fails: a caller's list that holds [date] twice is sent as
    it is, with [date] twice. *)
Lemma execute_request_date_twice :
  dimensions
    <$> queries (out (execute_request (Sample.client (Some Sample.silent))
                        "sc-domain:example.com" "2024-01-01" "2024-01-02"
                        0%nat 25000 (Sample.world_with ["date"; "date"])))
  = [["date"; "date"]]
  /\ count_date ["date"; "date"] = 2%nat.
Proof. split; reflexivity. Qed.

Lemma execute_request_columns_metrics_then_dimensions_witness :
  columns Sample.answered = metric_columns ++ ["query"; "date"]
  /\ forall p c,
       ToCsv p c ∈ out (save_daily_csvs Sample.no_fault Sample.answered
                          "query" "out" Sample.world0) ->
       head c = Some (Str <$> (metric_columns ++ ["query"; "date"])).
Proof.
  destruct (execute_request_columns_metrics_then_dimensions
              (Sample.client (Some Sample.answering)) Sample.answering
              "sc-domain:example.com" "2024-01-01" "2024-01-02" 0%nat 25000
              (Sample.world_with ["query"]) ["query"] Sample.answered
              (mkWire "2024-01-01" "2024-01-02" ["query"; "date"] 25000 0))
    as [Hcols Hhead].
  - reflexivity.
  - reflexivity.
  - reflexivity.
  - reflexivity.
  - reflexivity.
  - by_computation.
  - intros c Hc. simpl in Hc.
    repeat (apply elem_of_cons in Hc as [->|Hc]; [by_computation|]).
    by apply elem_of_nil in Hc.
  - split; [exact Hcols|]. intros p c. apply Hhead.
Defined.

(** C3 as stated fails: for the report [query] the table, and the header
    of each of its daily files, has the metrics before the dimensions. *)
Lemma execute_request_columns_of_the_query_report :
  res (execute_request (Sample.client (Some Sample.answering))
         "sc-domain:example.com" "2024-01-01" "2024-01-02" 0%nat 25000
         (Sample.world_with ["query"]))
  = Ret Sample.answered
  /\ columns Sample.answered
     = ["clicks"; "impressions"; "ctr"; "position"; "query"; "date"]
  /\ columns Sample.answered
     <> ["query"; "date"; "clicks"; "impressions"; "ctr"; "position"]
  /\ (fun pc => head pc.2)
       <$> csv_writes (out (save_daily_csvs Sample.no_fault Sample.answered
                              "query" "out" Sample.world0))
     = [Some [Str "clicks"; Str "impressions"; Str "ctr"; Str "position";
              Str "query"; Str "date"];
        Some [Str "clicks"; Str "impressions"; Str "ctr"; Str "position";
              Str "query"; Str "date"]].
Proof. split_and!; [reflexivity | reflexivity | discriminate | reflexivity]. Qed.

Lemma execute_request_failures_give_empty_table_witness :
  res (execute_request (Sample.client None) "sc-domain:example.com"
         "2024-01-01" "2024-01-02" 0%nat 25000 (Sample.world_with ["query"]))
  = Ret DataFrame_new
  /\ res (execute_request (Sample.client (Some Sample.refusing))
            "sc-domain:example.com" "2024-01-01" "2024-01-02" 0%nat 25000
            (Sample.world_with ["query"]))
     = Ret DataFrame_new
  /\ csv_writes (out (run_report Sample.no_fault (Sample.args 25000)
                        (Sample.client (Some Sample.silent)) ("query", 0%nat)
                        (Sample.world_with ["query"])))
     = [].
Proof.
  destruct execute_request_failures_give_empty_table as [Hquery Hreport].
  split_and!.
  - destruct (Hquery (Sample.client None) "sc-domain:example.com"
                "2024-01-01" "2024-01-02" 0%nat 25000
                (Sample.world_with ["query"])) as (_ & _ & Hnone & _).
    destruct Hnone as [Hres _]; [reflexivity | exact Hres].
  - destruct (Hquery (Sample.client (Some Sample.refusing))
                "sc-domain:example.com" "2024-01-01" "2024-01-02" 0%nat 25000
                (Sample.world_with ["query"])) as (_ & _ & _ & Hfail).
    apply (Hfail Sample.refusing
             (mkWire "2024-01-01" "2024-01-02" ["query"; "date"] 25000 0));
      reflexivity.
  - destruct (Hreport Sample.no_fault (Sample.args 25000)
                (Sample.client (Some Sample.silent)) "query" 0%nat
                (Sample.world_with ["query"]) DataFrame_new)
      as (_ & Hwrites & _).
    + reflexivity.
    + reflexivity.
    + exact Hwrites.
Defined.


Lemma main_missing_key_file_witness :
  out (main unit Sample.key_missing (Sample.build_with Sample.answering)
         Sample.no_fault (Sample.args 25000) Sample.world0)
  = [Printed (MsgKeyFileNotFound "key.json"); Printed MsgCheckPath;
     Printed MsgFailedInit].
Proof.
  destruct (main_missing_key_file unit Sample.key_missing
              (Sample.build_with Sample.answering) Sample.no_fault
              (Sample.args 25000) Sample.world0)
    as (_ & _ & Hout & _).
  - reflexivity.
  - exact Hout.
Defined.

Lemma main_row_limit_is_the_limit_argument_witness :
  Forall (fun body => rowLimit body <= 25000)
    (queries (out (main unit Sample.key_found (Sample.build_with Sample.silent)
                     Sample.no_fault (Sample.args 25000) Sample.world0))).
Proof.
  destruct (main_row_limit_is_the_limit_argument unit Sample.key_found
              (Sample.build_with Sample.silent) Sample.no_fault
              (Sample.args 25000) Sample.world0) as [_ Hle].
  apply Hle. simpl. lia.
Defined.

(** C8 as stated fails: with [--limit 30000] each of the seven requests
    asks for 30000 rows. *)
Lemma main_row_limit_above_the_ceiling :
  rowLimit
    <$> queries (out (main unit Sample.key_found
                        (Sample.build_with Sample.silent) Sample.no_fault
                        (Sample.args 30000) Sample.world0))
  = replicate 7 30000.
Proof. vm_compute. reflexivity. Qed.

Lemma execute_request_appends_date_in_place_witness :
  heap (final (execute_request (Sample.client (Some Sample.silent))
                 "sc-domain:example.com" "2024-01-01" "2024-01-02" 0%nat
                 25000 (Sample.world_with ["query"]))) !! 0%nat
  = Some ["query"; "date"]
  /\ heap (final (main unit Sample.key_found (Sample.build_with Sample.silent)
                    Sample.no_fault (Sample.args 25000) Sample.world0))
       !! 4%nat
     = Some ["query"].
Proof.
  destruct execute_request_appends_date_in_place as (Happend & _ & Hmain).
  split.
  - destruct (Happend (Sample.client (Some Sample.silent)) Sample.silent
                "sc-domain:example.com" "2024-01-01" "2024-01-02" 0%nat 25000
                (Sample.world_with ["query"]) ["query"]) as [H _].
    + reflexivity.
    + reflexivity.
    + by_computation.
    + exact H.
  - apply (Hmain unit Sample.key_found (Sample.build_with Sample.silent)
             Sample.no_fault (Sample.args 25000) Sample.world0 4%nat "query").
    reflexivity.
Defined.

(** C9 as stated fails: with an uninitialised handle the caller's list,
    which lacks [date], is as before after the call. *)
Lemma execute_request_uninitialized_keeps_the_list :
("date" ∉ ["query"])
  /\ heap (final (execute_request (Sample.client None) "sc-domain:example.com"
                    "2024-01-01" "2024-01-02" 0%nat 25000
                    (Sample.world_with ["query"])))
     = [["query"]].
Proof. split; [by_computation | reflexivity]. Qed.


(** ** Further checks of the model *)

Example strptime_canonical :
  Datetime.strptime "2024-01-05" = Ret (Datetime.Date 2024 1 5).
Proof. reflexivity. Qed.

Example strptime_unpadded :
  Datetime.strptime "2024-1-5" = Ret (Datetime.Date 2024 1 5)
  /\ Datetime.strptime "2024-01- 5" = Ret (Datetime.Date 2024 1 5).
Proof. split; reflexivity. Qed.

Example strptime_leap_day :
  Datetime.strptime "2024-02-29" = Ret (Datetime.Date 2024 2 29)
  /\ Datetime.strptime "2023-02-29" = Raise ValueError.
Proof. split; reflexivity. Qed.

Example strptime_rejects :
  Datetime.strptime "2024/01/05" = Raise ValueError
  /\ Datetime.strptime "2024-13-01" = Raise ValueError
  /\ Datetime.strptime "2024-01-051" = Raise ValueError
  /\ Datetime.strptime "0000-01-01" = Raise ValueError
  /\ Datetime.strptime "" = Raise ValueError.
Proof. repeat split; reflexivity. Qed.

Example strftime_pads :
  Datetime.strftime (Datetime.Date 2024 1 5) = "2024-01-05".
Proof. reflexivity. Qed.

Example os_path_join_cases :
  os_path_join "out" "query" = "out/query"
  /\ os_path_join "out/" "query" = "out/query"
  /\ os_path_join "" "query" = "query"
  /\ os_path_join "out" "/query" = "/query".
Proof. repeat split; reflexivity. Qed.

(** None of the report definitions holds [date], and none repeats a
    dimension or uses the name of a field of the response rows. *)
Example report_definitions_dimensions :
  Forall (fun def => count_date def.2 = 0%nat /\ NoDup def.2
                     /\ forall c, c ∈ def.2 -> c ∉ record_columns)
    report_definitions.
Proof.
  repeat (apply Forall_cons; split;
          [split_and!;
           [reflexivity
           |by_computation
           |let c := fresh in let Hc := fresh in
            intros c Hc; simpl in Hc;
            repeat (apply elem_of_cons in Hc as [->|Hc]; [by_computation|]);
            by apply elem_of_nil in Hc]|]).
  apply Forall_nil_2.
Qed.

(** A ragged answer: with one key where the request has two dimensions the
    shorter row is filled with a missing value, and its row goes to no
    file. *)
Example reshape_fills_short_rows :
  reshape [mkRow ["rocq"; "2024-01-01"] (Sample.num 1) (Sample.num 10)
             (QArith_base.Qmake 1 10) (Sample.num 3);
           mkRow ["coq"] (Sample.num 2) (Sample.num 20)
             (QArith_base.Qmake 1 10) (Sample.num 3)]
    ["query"; "date"]
  = Ret (mkDataFrame Sample.header
           [Sample.row "rocq" "2024-01-01" 1;
            [Num (Sample.num 2); Num (Sample.num 20);
             Num (QArith_base.Qmake 1 10); Num (Sample.num 3); Str "coq"; NA]]).
Proof. reflexivity. Qed.

(** An answer whose rows have more keys than the request has dimensions is
    dropped: the assignment raises, the handler returns the empty table. *)
Example reshape_rejects_wide_rows :
  reshape [mkRow ["a"; "b"; "2024-01-01"] (Sample.num 1) (Sample.num 10)
             (QArith_base.Qmake 1 10) (Sample.num 3)]
    ["query"; "date"]
  = Raise ValueError.
Proof. reflexivity. Qed.

(** * Further properties *)

(** ** Dates: parsing what was formatted *)

Lemma digit_is_digit (n : Z) :
  Datetime.is_digit (Datetime.digit n) = true
  /\ Datetime.digit_value (Datetime.digit n) = n mod 10.
Proof.
  unfold Datetime.digit.
  assert (H : 0 <= n mod 10 < 10) by (apply Z.mod_pos_bound; lia).
  set (k := n mod 10) in *. clearbody k.
  assert (Hk : k = 0 \/ k = 1 \/ k = 2 \/ k = 3 \/ k = 4 \/ k = 5 \/ k = 6
               \/ k = 7 \/ k = 8 \/ k = 9) by lia.
  repeat (destruct Hk as [->|Hk]; [by vm_compute|]). subst. by vm_compute.
Qed.

Lemma four_digits (y : Z) :
  0 <= y <= 9999 ->
  Datetime.int_of_digits
    [Datetime.digit (y / 1000); Datetime.digit (y / 100);
     Datetime.digit (y / 10); Datetime.digit y] = y.
Proof.
  intros Hy. unfold Datetime.int_of_digits. simpl.
  rewrite !(proj2 (digit_is_digit _)).
  Z.div_mod_to_equations. lia.
Qed.

Lemma re_class_accepts (p : ascii -> bool) (c : ascii) (r : list ascii) :
  p c = true -> Datetime.re_class p (c :: r) = [(c, r)].
Proof. intros H. unfold Datetime.re_class. by rewrite H. Qed.

Lemma re_Y_four_digits (y : Z) (rest : list ascii) :
  0 <= y <= 9999 ->
  Datetime.re_Y (Datetime.digit (y / 1000) :: Datetime.digit (y / 100)
                   :: Datetime.digit (y / 10) :: Datetime.digit y :: rest)
  = [(y, rest)].
Proof.
  intros Hy. unfold Datetime.re_Y.
  rewrite re_class_accepts by apply digit_is_digit. cbn [mbind list_bind app].
  rewrite re_class_accepts by apply digit_is_digit. cbn [mbind list_bind app].
  rewrite re_class_accepts by apply digit_is_digit. cbn [mbind list_bind app].
  rewrite re_class_accepts by apply digit_is_digit. cbn [mbind list_bind app].
  by rewrite four_digits.
Qed.

Lemma days_in_month_le (y m : Z) : Datetime.days_in_month y m <= 31.
Proof.
  unfold Datetime.days_in_month.
  repeat match goal with
         | |- context [match ?x with _ => _ end] => destruct x
         | |- context [if ?b then _ else _] => destruct b
         end; lia.
Qed.

Lemma valid_date_bounds (y m dd : Z) :
  Datetime.valid_date y m dd = true ->
  1 <= y <= 9999 /\ 1 <= m <= 12 /\ 1 <= dd <= Datetime.days_in_month y m.
Proof.
  unfold Datetime.valid_date. rewrite !andb_true_iff, !Z.leb_le. lia.
Qed.

(** A valid date, formatted and parsed again, is the same date. *)
Lemma strptime_strftime (d : Datetime.date) :
  Datetime.valid_date (Datetime.year d) (Datetime.month d) (Datetime.day d)
  = true ->
  Datetime.strptime (Datetime.strftime d) = Ret d.
Proof.
  destruct d as [y m dd]. simpl. intros Hv.
  destruct (valid_date_bounds y m dd Hv) as (Hy & Hm' & Hd').
  pose proof (days_in_month_le y m) as Hle.
  assert (Hmatch :
    Datetime.format_regex_match
      (String.list_ascii_of_string (Datetime.strftime (Datetime.Date y m dd)))
    = Some (y, m, dd, [])).
  { change (String.list_ascii_of_string
              (Datetime.strftime (Datetime.Date y m dd)))
      with (Datetime.digit (y / 1000) :: Datetime.digit (y / 100)
              :: Datetime.digit (y / 10) :: Datetime.digit y
              :: String.list_ascii_of_string
                   ("-" +:+ Datetime.zfill2 m +:+ "-" +:+ Datetime.zfill2 dd)).
    unfold Datetime.format_regex_match.
    rewrite re_Y_four_digits by lia.
    assert (Hm : m = 1 \/ m = 2 \/ m = 3 \/ m = 4 \/ m = 5 \/ m = 6 \/ m = 7 \/ m = 8 \/ m = 9 \/ m = 10 \/ m = 11 \/ m = 12) by lia.
    assert (Hd : dd = 1 \/ dd = 2 \/ dd = 3 \/ dd = 4 \/ dd = 5 \/ dd = 6 \/ dd = 7 \/ dd = 8 \/ dd = 9 \/ dd = 10 \/ dd = 11 \/ dd = 12 \/ dd = 13 \/ dd = 14 \/ dd = 15 \/ dd = 16 \/ dd = 17 \/ dd = 18 \/ dd = 19 \/ dd = 20 \/ dd = 21 \/ dd = 22 \/ dd = 23 \/ dd = 24 \/ dd = 25 \/ dd = 26 \/ dd = 27 \/ dd = 28 \/ dd = 29 \/ dd = 30 \/ dd = 31) by lia.
    clear Hv Hd' Hle Hy Hm'.
    repeat (destruct Hm as [->|Hm]); subst;
      repeat (destruct Hd as [->|Hd]); subst; vm_compute; reflexivity. }
  unfold Datetime.strptime. rewrite Hmatch. by rewrite Hv.
Qed.

Lemma strptime_valid (s : string) (d : Datetime.date) :
  Datetime.strptime s = Ret d ->
  Datetime.valid_date (Datetime.year d) (Datetime.month d) (Datetime.day d)
  = true.
Proof.
  unfold Datetime.strptime.
  destruct (Datetime.format_regex_match _) as [[[[y m] dd] [|c rest]]|];
    [|done..].
  destruct (Datetime.valid_date y m dd) eqn:Hv; [|done]. by intros [= <-].
Qed.



(** ** The writer, in general *)

Lemma StronglySorted_filter {A : Type} (R : relation A) (P : A -> Prop)
    `{forall x, Decision (P x)} (l : list A) :
  StronglySorted R l -> StronglySorted R (filter P l).
Proof.
  induction l as [|x l IH]; [done|].
  intros [Hx Hl]%StronglySorted_cons. rewrite filter_cons.
  destruct (decide (P x)); [|by apply IH].
  apply StronglySorted_cons. split; [|by apply IH].
  apply Forall_forall. intros y [_ Hy]%list_elem_of_filter.
  rewrite Forall_forall in Hx. by apply Hx.
Qed.

(** [groupby] yields the dates in ascending order. *)
Lemma date_values_sorted (df : DataFrame) :
  StronglySorted String.le (date_values df).
Proof.
  unfold date_values. destruct (column_index "date" df); [|constructor].
  unfold group_keys. apply (StronglySorted_merge_sort _).
Qed.

Lemma foldl_insert_last {V : Type} (l1 l2 : list (string * V))
    (f : gmap string V) (p : string) (c : V) :
  p ∉ l2.*1 ->
  foldl (fun f pc => <[pc.1 := pc.2]> f) f (l1 ++ (p, c) :: l2) !! p = Some c.
Proof.
  intros Hp. rewrite foldl_app. simpl.
  rewrite foldl_insert_notin by done. apply lookup_insert_eq.
Qed.

Lemma csv_writes_groups_normalized (df : DataFrame) (rt base : string)
    (l : list string) :
  csv_writes (concat (group_events rt base
                        <$> ((fun k => (k, daily_frame k df)) <$> l)))
  = (fun s => (daily_file rt base (normalized s), csv_lines (daily_frame s df)))
      <$> filter (fun s => parses s = true) l.
Proof.
  induction l as [|s l IH]; [reflexivity|].
  rewrite !fmap_cons, concat_cons, csv_writes_app, IH, filter_cons.
  unfold group_events at 1. simpl.
  destruct (decide (parses s = true)) as [Ep|Ep].
  - apply parses_Ret in Ep as [d Hd].
    rewrite fmap_cons. unfold normalized at 2. by rewrite Hd.
  - unfold parses in Ep. by destruct (Datetime.strptime s).
Qed.


Lemma for_each_final_invariant_elem {A : Type} (P : world -> Prop)
    (body : A -> M unit) (l : list A) (w : world) :
  (forall x w', x ∈ l -> P w' -> P (final (body x w'))) ->
  P w -> P (final (for_each l body w)).
Proof.
  revert w. induction l as [|x l IH]; intros w Hbody Hw; [done|].
  rewrite for_each_cons, bind_run.
  assert (P (final (body x w))) by (apply Hbody; [left | done]).
  destruct (res (body x w)); simpl; [|done].
  apply IH; [|done]. intros y w' Hy. apply Hbody. by right.
Qed.

(** What [save_group] leaves behind: nothing, the directory, or the
    directory and the file of the parsed date. *)
Lemma save_group_final (io_fault : string -> option exn) (rt base s : string)
    (g : DataFrame) (w : world) :
  let w' := final (save_group io_fault rt base (s, g) w) in
  w' = w
  \/ (io_fault (os_path_join base rt) = None
      /\ w' = mkWorld ({[os_path_join base rt]} ∪ dirs w) (files w) (heap w))
  \/ (exists d, Datetime.strptime s = Ret d
        /\ io_fault (os_path_join base rt) = None
        /\ io_fault (daily_file rt base (Datetime.strftime d)) = None
        /\ w' = mkWorld ({[os_path_join base rt]} ∪ dirs w)
                  (<[daily_file rt base (Datetime.strftime d) := csv_lines g]>
                     (files w))
                  (heap w)).
Proof.
  unfold save_group, try_except. rewrite !bind_run.
  unfold lift, os_makedirs, to_csv, daily_file. simpl.
  destruct (Datetime.strptime s) as [d|e] eqn:Es; simpl.
  - destruct (io_fault (os_path_join base rt)) as [e|] eqn:E1; simpl.
    { left. by destruct e. }
    destruct (io_fault (os_path_join (os_path_join base rt) _)) as [e|] eqn:E2;
      simpl.
    { right. left. split; [done|]. by destruct e. }
    right. right. exists d. done.
  - left. by destruct e.
Qed.

(** A file is written only after its directory was made. *)
Lemma save_group_out_csv (io_fault : string -> option exn)
    (rt base s : string) (g : DataFrame) (w : world) (p : string)
    (c : list (list cell)) :
  ToCsv p c ∈ out (save_group io_fault rt base (s, g) w) ->
  io_fault (os_path_join base rt) = None /\ io_fault p = None.
Proof.
  unfold save_group, try_except. rewrite !bind_run.
  unfold lift, os_makedirs, to_csv, daily_file. simpl.
  destruct (Datetime.strptime s) as [d|e] eqn:Es; simpl.
  - destruct (io_fault (os_path_join base rt)) as [e|] eqn:E1; simpl.
    { destruct e; simpl; by intros ?%list_elem_of_singleton. }
    destruct (io_fault (os_path_join (os_path_join base rt) _)) as [e|] eqn:E2;
      simpl.
    { destruct e; simpl;
        intros H; repeat (apply elem_of_cons in H as [?|H]; [done|]);
        by apply elem_of_nil in H. }
    intros H. apply elem_of_cons in H as [?|H]; [done|].
    apply elem_of_cons in H as [[= -> _]|H]; [done|]. by apply elem_of_nil in H.
  - destruct e; simpl; by intros ?%list_elem_of_singleton.
Qed.

(** A group whose date parses and whose directory or file the operating
    system refuses is reported. *)
Lemma save_group_refused (io_fault : string -> option exn)
    (rt base s : string) (g : DataFrame) (w : world) (d : Datetime.date)
    (e : exn) :
  Datetime.strptime s = Ret d ->
  io_fault (os_path_join base rt) = Some e
  \/ (io_fault (os_path_join base rt) = None
      /\ io_fault (daily_file rt base (Datetime.strftime d)) = Some e) ->
  Printed (save_failed s e) ∈ out (save_group io_fault rt base (s, g) w).
Proof.
  intros Hd Hio.
  unfold save_group, try_except, save_failed. rewrite !bind_run.
  unfold lift, os_makedirs, to_csv, daily_file in *. simpl.
  rewrite Hd. simpl.
  destruct Hio as [E1|[E1 E2]]; rewrite E1; simpl.
  - destruct e; simpl; by left.
  - rewrite E2. simpl. destruct e; simpl; right; by left.
Qed.



(** ** The reshaped answer, in general *)

Lemma column_index_keys (rows : list (list cell)) (rest : list string) :
  column_index "keys" (mkDataFrame (record_columns ++ rest) rows) = Some 0%nat.
Proof. reflexivity. Qed.

(** The lists under [keys], read back from the frame of the records. *)
Lemma getitem_keys (r : api_row) (rs : list api_row) :
  getitem (DataFrame_of_records (r :: rs)) "keys"
  = Ret ((fun x => Keys (keys x)) <$> (r :: rs)).
Proof.
  change (DataFrame_of_records (r :: rs))
    with (mkDataFrame (record_columns ++ []) (record_cells <$> (r :: rs))).
  unfold getitem. rewrite column_index_keys. cbn [data].
  by rewrite <- list_fmap_compose.
Qed.

Lemma tolist_keys (rs : list api_row) :
  tolist ((fun x => Keys (keys x)) <$> rs) = keys <$> rs.
Proof. unfold tolist. by rewrite <- list_fmap_compose. Qed.

Lemma reshape_unfold (r : api_row) (rs : list api_row) (key : list string) :
  reshape (r :: rs) key
  = match setitem_array (mkDataFrame record_columns (record_cells <$> (r :: rs)))
            key (frame_width (keys <$> (r :: rs)))
            (DataFrame_of_lists (keys <$> (r :: rs))) with
    | Raise e => Raise e
    | Ret df' => drop_column df' "keys"
    end.
Proof.
  unfold reshape. rewrite getitem_keys. cbv zeta. by rewrite tolist_keys.
Qed.

(** A response whose longest key list has not the length of the request's
    dimension list cannot be assigned. *)
Lemma reshape_width_mismatch (rs : list api_row) (key : list string) :
  rs <> [] ->
  frame_width (keys <$> rs) <> length key ->
  reshape rs key = Raise ValueError.
Proof.
  intros Hrs Hw. destruct rs as [|r rs]; [done|].
  rewrite reshape_unfold. unfold setitem_array.
  by rewrite bool_decide_eq_false_2.
Qed.

Lemma zip_with_fmap_same {A B C D : Type} (h : B -> C -> D) (f : A -> B)
    (g : A -> C) (l : list A) :
  zip_with h (f <$> l) (g <$> l) = (fun x => h (f x) (g x)) <$> l.
Proof.
  induction l as [|x l IH]; [done|].
  rewrite !fmap_cons. cbn [zip_with]. by rewrite IH.
Qed.

Lemma fmap_lookup_seq (l : list cell) :
  (fun i => default NA (l !! i)) <$> seq 0 (length l) = l.
Proof.
  apply list_eq. intros i. rewrite list_lookup_fmap.
  destruct (decide (i < length l)%nat) as [Hlt|Hge].
  - rewrite lookup_seq_lt by done. simpl.
    destruct (lookup_lt_is_Some_2 l i Hlt) as [c Hc]. by rewrite Hc.
  - rewrite lookup_seq_ge by lia. simpl. symmetry. apply lookup_ge_None. lia.
Qed.

(** The pairwise assignment of new columns, on frames built row by row
    from the same list. *)
Lemma setitem_pairs_data (rs : list api_row) (g : api_row -> list cell)
    (key : list string) (idxs : list nat) (f : api_row -> list cell)
    (cols : list string) :
  length idxs = length key ->
  NoDup key ->
  (forall c, c ∈ key -> c ∉ cols) ->
  foldl (fun acc '(k1, k2) =>
           setitem acc k1 ((fun row => default NA (row !! k2)) <$> (g <$> rs)))
    (mkDataFrame cols (f <$> rs)) (zip key idxs)
  = mkDataFrame (cols ++ key)
      ((fun r => f r ++ ((fun k2 => default NA (g r !! k2)) <$> idxs)) <$> rs).
Proof.
  revert idxs f cols.
  induction key as [|k key IH]; intros idxs f cols Hlen Hnd Hnew.
  - destruct idxs; [|done]. simpl. rewrite app_nil_r. f_equal.
    apply list_fmap_ext. intros i r _. by rewrite app_nil_r.
  - destruct idxs as [|i idxs]; [done|]. simpl in Hlen.
    apply NoDup_cons in Hnd as [Hk Hnd]. cbn [zip zip_with foldl].
    unfold setitem at 2.
    rewrite column_index_not_elem_of by (apply Hnew; left). cbn [columns data].
    rewrite <- list_fmap_compose, zip_with_fmap_same.
    etrans.
    { apply (IH idxs (fun r => f r ++ [default NA (g r !! i)]) (cols ++ [k]));
        [lia | done |].
      intros c Hc [Hin|Hin%list_elem_of_singleton]%elem_of_app.
      - by apply (Hnew c); [right|].
      - by subst. }
    rewrite <- app_assoc. f_equal.
    apply list_fmap_ext. intros j r _. by rewrite <- app_assoc.
Qed.

Lemma table_row_length (n : nat) (r : api_row) :
  (length (keys r) <= n)%nat ->
  length ((Str <$> keys r) ++ replicate (n - length (keys r)) NA) = n.
Proof.
  intros H. rewrite length_app, length_fmap, length_replicate. lia.
Qed.

(** The table made of a response whose key lists fit the dimensions. *)
Lemma reshape_rows (rs : list api_row) (key : list string) :
  rs <> [] ->
  NoDup key ->
  (forall c, c ∈ key -> c ∉ record_columns) ->
  frame_width (keys <$> rs) = length key ->
  reshape rs key
  = Ret (mkDataFrame (metric_columns ++ key) (table_row (length key) <$> rs)).
Proof.
  intros Hrs Hnd Hnew Hw. destruct rs as [|r0 rs0]; [done|].
  rewrite reshape_unfold. unfold setitem_array.
  rewrite bool_decide_eq_true_2 by done.
  set (rs := r0 :: rs0) in *. clearbody rs.
  match goal with
  | |- context [foldl ?F ?D ?Z] =>
      assert (Hfold : foldl F D Z
        = mkDataFrame (record_columns ++ key)
            ((fun r => record_cells r
                ++ ((fun k2 => default NA
                       (((Str <$> keys r)
                         ++ replicate (frame_width (keys <$> rs)
                                       - length (keys r)) NA) !! k2))
                      <$> seq 0 (frame_width (keys <$> rs)))) <$> rs))
  end.
  { unfold DataFrame_of_lists. rewrite <- list_fmap_compose.
    apply (setitem_pairs_data rs
             (fun r => (Str <$> keys r)
                       ++ replicate (frame_width (keys <$> rs)
                                     - length (keys r)) NA));
      [by rewrite length_seq | done | done]. }
  rewrite Hfold.
  unfold drop_column. rewrite column_index_keys. cbn [columns data].
  f_equal. f_equal. rewrite <- list_fmap_compose.
  apply list_fmap_ext. intros i r Hr. simpl.
  assert (Hle : (length (keys r) <= frame_width (keys <$> rs))%nat).
  { apply max_list_elem_of_le. apply list_elem_of_fmap.
    exists (keys r). split; [done|]. apply list_elem_of_fmap.
    exists r. split; [done|]. by eapply list_elem_of_lookup_2. }
  pose proof (table_row_length _ r Hle) as Hlen.
  rewrite <- Hlen at 1. rewrite fmap_lookup_seq. unfold table_row.
  by rewrite Hw.
Qed.

Lemma setitem_columns_elem_of (df : DataFrame) (name : string)
    (values : list cell) (c : string) :
  c ∈ columns (setitem df name values) <-> c ∈ columns df \/ c = name.
Proof.
  unfold setitem. destruct (column_index name df) as [i|] eqn:E; simpl.
  - apply column_index_lookup, list_elem_of_lookup_2 in E.
    split; [by left | by intros [?| ->]].
  - rewrite elem_of_app, list_elem_of_singleton. done.
Qed.

Lemma setitem_pairs_columns_elem_of (value : list (list cell))
    (key : list string) (idxs : list nat) (df : DataFrame) (c : string) :
  length idxs = length key ->
  c ∈ columns
        (foldl (fun acc '(k1, k2) =>
                  setitem acc k1 ((fun row => default NA (row !! k2)) <$> value))
           df (zip key idxs))
  <-> c ∈ columns df \/ c ∈ key.
Proof.
  revert idxs df. induction key as [|k key IH]; intros idxs df Hlen.
  - simpl. rewrite elem_of_nil. tauto.
  - destruct idxs as [|i idxs]; [done|]. simpl in Hlen. cbn [zip zip_with foldl].
    rewrite IH by lia. rewrite setitem_columns_elem_of, elem_of_cons. tauto.
Qed.

Lemma elem_of_delete_NoDup (l : list string) (i : nat) (x c : string) :
  NoDup l -> l !! i = Some x -> c ∈ delete i l <-> c ∈ l /\ c <> x.
Proof.
  intros Hnd Hi. rewrite delete_take_drop.
  rewrite <- (take_drop_middle l i x Hi) in Hnd at 1.
  rewrite <- (take_drop_middle l i x Hi) at 3.
  apply NoDup_app in Hnd as (_ & Hdisj & [Hx _]%NoDup_cons).
  rewrite !elem_of_app, elem_of_cons. split.
  - intros [Hc|Hc].
    + split; [by left|]. intros ->. by apply (Hdisj x Hc); left.
    + split; [right; by right|]. by intros ->.
  - intros [[Hc|[->|Hc]] Hne]; [by left | done | by right].
Qed.

(** The columns of a reshaped table, as a set: the metrics and the
    dimensions of the request, without [keys]. *)
Lemma reshape_columns_elem_of (rs : list api_row) (key : list string)
    (df : DataFrame) (c : string) :
  reshape rs key = Ret df ->
  c ∈ columns df <-> (c ∈ metric_columns \/ c ∈ key) /\ c <> "keys".
Proof.
  destruct rs as [|r rs]; [done|]. rewrite reshape_unfold.
  unfold setitem_array. destruct (bool_decide _) eqn:Hw; [|done].
  apply bool_decide_eq_true in Hw.
  set (df' := foldl _ _ _).
  assert (Hflat : flat df').
  { apply setitem_pairs_flat.
    - split_and!; cbn [columns data].
      + apply (bool_decide_unpack _). vm_compute. exact I.
      + apply Forall_fmap, Forall_forall. by intros row _.
      + intros i Hi. exfalso. do 5 (destruct i as [|i]; [done|]). done.
    - unfold DataFrame_of_lists. apply Forall_fmap, Forall_forall.
      intros l _. simpl. apply Forall_app. split.
      + apply Forall_fmap, Forall_forall. by intros s _.
      + by apply Forall_replicate. }
  assert (Hcols : forall x, x ∈ columns df' <-> x ∈ record_columns \/ x ∈ key).
  { intros x. subst df'. apply setitem_pairs_columns_elem_of.
    by rewrite length_seq. }
  unfold drop_column.
  destruct (column_index "keys" df') as [i|] eqn:E; [|done].
  apply column_index_lookup in E. intros [= <-]. cbn [columns].
  rewrite (elem_of_delete_NoDup _ i "keys") by (done || apply Hflat).
  rewrite Hcols. unfold record_columns, metric_columns.
  rewrite (elem_of_cons _ c "keys"). split.
  - intros [[[->|?]|?] ?]; [done|..]; tauto.
  - tauto.
Qed.

Lemma reshape_has_rows (rs : list api_row) (key : list string)
    (df : DataFrame) :
  reshape rs key = Ret df -> rs <> [] /\ length (data df) = length rs.
Proof.
  destruct rs as [|r rs]; [done|]. intros H. split; [done|]. revert H.
  rewrite reshape_unfold.
  unfold setitem_array. destruct (bool_decide _) eqn:Hw; [|done].
  set (value := DataFrame_of_lists _).
  assert (Hvalue : length value = length (r :: rs)).
  { subst value. unfold DataFrame_of_lists. by rewrite !length_fmap. }
  assert (Hfold : forall pairs df0,
            length (data df0) = length (r :: rs) ->
            length (data (foldl (fun acc '(k1, k2) =>
                       setitem acc k1
                         ((fun row => default NA (row !! k2)) <$> value))
                     df0 pairs)) = length (r :: rs)).
  { induction pairs as [|[k1 k2] pairs IH]; intros df0 Hdf0; [done|].
    cbn [foldl]. apply IH. unfold setitem.
    destruct (column_index k1 df0); cbn [data];
      rewrite length_zip_with, length_fmap; lia. }
  unfold drop_column. destruct (column_index _ _); [|done].
  intros [= <-]. cbn [data]. rewrite length_fmap. apply Hfold.
  simpl. by rewrite length_fmap.
Qed.


(** X7.  When the longest key list of an answer with rows has not the
    number of the request's dimensions, [execute_request] returns the empty
    table and prints the request error for the [ValueError] of the
    assignment. *)
Theorem execute_request_drops_misfit_answer
    (self : SearchConsoleAPI) (svc : Resource) (pu sd ed : string) (l : loc)
    (rl : Z) (w : world) (v : list string) (rs : list api_row) :
  service self = Some svc ->
  heap w !! l = Some v ->
  searchanalytics_query svc pu (mkWire sd ed (dimensions_sent v) rl 0)
  = Ret (mkResponse (Some rs)) ->
  rs <> [] ->
  frame_width (keys <$> rs) <> length (dimensions_sent v) ->
  let o := execute_request self pu sd ed l rl w in
  res o = Ret DataFrame_new
  /\ out o = [Query pu (mkWire sd ed (dimensions_sent v) rl 0);
              Printed (MsgRequestError ValueError)].
Proof.
  intros Hsvc Hl Hanswer Hrs Hw o. subst o.
  rewrite (execute_request_run self svc) by done.
  destruct (dimensions_at_allocated l (heap w) v Hl) as [-> _].
  cbn [res out]. unfold answer_of. rewrite Hanswer. cbn [rows].
  by rewrite reshape_width_mismatch.
Qed.

(** X8.  Every table [execute_request] returns is a flat table.  If it is
    not empty, it has as many rows as the answer, its columns are the four
    metrics and the dimensions of the request and no others (so [date] is
    among them), and the [keys] column is gone. *)
Theorem execute_request_table_shape
    (self : SearchConsoleAPI) (pu sd ed : string) (l : loc) (rl : Z)
    (w : world) (v : list string) (df : DataFrame) :
  heap w !! l = Some v ->
  res (execute_request self pu sd ed l rl w) = Ret df ->
  flat_table df = true
  /\ (df_empty df = false ->
      (forall c, c ∈ columns df <->
                 (c ∈ metric_columns \/ c ∈ dimensions_sent v) /\ c <> "keys")
      /\ "date" ∈ columns df
      /\ ("keys" ∉ columns df)
      /\ exists svc rs,
           service self = Some svc
           /\ searchanalytics_query svc pu
                (mkWire sd ed (dimensions_sent v) rl 0)
              = Ret (mkResponse (Some rs))
           /\ length (data df) = length rs).
Proof.
  intros Hl Hres. split; [by eapply execute_request_flat_table|].
  intros Hne. destruct (service self) as [svc|] eqn:Hsvc.
  2:{ rewrite execute_request_uninitialized in Hres by done.
      injection Hres as <-. done. }
  rewrite (execute_request_run self svc) in Hres by done.
  destruct (dimensions_at_allocated l (heap w) v Hl) as [Hdims _].
  rewrite Hdims in Hres. cbn [res] in Hres. injection Hres as Hres.
  unfold answer_of in Hres.
  destruct (searchanalytics_query svc pu _) as [[[rs|]]|e] eqn:Hanswer;
    cbn [rows fst] in Hres; try (subst df; done).
  destruct (reshape rs _) as [df'|e] eqn:Hr; cbn [fst] in Hres;
    [|subst df; done].
  subst df'.
  assert (Hcols : forall c, c ∈ columns df <->
            (c ∈ metric_columns \/ c ∈ dimensions_sent v) /\ c <> "keys").
  { intros c. by apply (reshape_columns_elem_of rs). }
  split_and!.
  - done.
  - apply Hcols. split; [|done]. right. unfold dimensions_sent.
    destruct (bool_decide ("date" ∈ v)) eqn:E.
    + by apply bool_decide_eq_true in E.
    + apply elem_of_app. right. by left.
  - intros Hk. by apply Hcols in Hk as [_ ?].
  - exists svc, rs. split_and!; [done..|].
    by apply reshape_has_rows in Hr as [_ ?].
Qed.

Lemma queries_of_request (site : string) (body : wire_request)
    (r : result response) (dims : list string) (sd ed : string) :
  queries (Query site body :: (answer_of r dims sd ed).2) = [body].
Proof.
  change (queries (Query site body :: ?evs)) with (body :: queries evs).
  by rewrite (queries_prints _ (answer_of_prints _ _ _ _)).
Qed.

(** X9.  The append is done once: after a call with an initialised handle
    the caller's list has [date], a further call on the same list leaves
    the heap as it is and sends the same dimensions; and a list that had
    [date] is never changed. *)
Theorem execute_request_append_is_idempotent
    (self : SearchConsoleAPI) (svc : Resource) (pu sd ed pu' sd' ed' : string)
    (l : loc) (rl rl' : Z) (w : world) (v : list string) :
  service self = Some svc ->
  heap w !! l = Some v ->
  let o1 := execute_request self pu sd ed l rl w in
  let o2 := execute_request self pu' sd' ed' l rl' (final o1) in
  heap (final o1) !! l = Some (dimensions_sent v)
  /\ "date" ∈ dimensions_sent v
  /\ heap (final o2) = heap (final o1)
  /\ dimensions <$> queries (out o2) = dimensions <$> queries (out o1)
  /\ ("date" ∈ v -> heap (final o1) = heap w).
Proof.
  intros Hsvc Hl o1 o2. subst o2 o1.
  assert (Hdate : "date" ∈ dimensions_sent v).
  { unfold dimensions_sent. destruct (bool_decide ("date" ∈ v)) eqn:E.
    - by apply bool_decide_eq_true in E.
    - apply elem_of_app. right. by left. }
  assert (Hfix : dimensions_sent (dimensions_sent v) = dimensions_sent v).
  { unfold dimensions_sent at 1. by rewrite bool_decide_eq_true_2. }
  rewrite (execute_request_run self svc pu sd ed l rl w) by done.
  destruct (dimensions_at_allocated l (heap w) v Hl) as [Hd1 Hh1].
  cbn [final out heap]. rewrite Hh1, Hd1.
  assert (Hl1 : <[l := dimensions_sent v]> (heap w) !! l
                = Some (dimensions_sent v)).
  { apply list_lookup_insert_eq. by apply lookup_lt_Some in Hl. }
  rewrite (execute_request_run self svc) by done.
  cbn [final out heap].
  destruct (dimensions_at_allocated l _ _ Hl1) as [Hd2 Hh2].
  rewrite Hh2, Hd2, Hfix.
  rewrite !queries_of_request.
  split_and!; [done | done | | done |].
  - by rewrite list_insert_insert_eq.
  - intros Hv. unfold dimensions_sent. rewrite bool_decide_eq_true_2 by done.
    by apply list_insert_id.
Qed.

(** ** The orchestrator, in general *)

Lemma requests_app (a b : list event) :
  requests (a ++ b) = requests a ++ requests b.
Proof. apply omap_app. Qed.

Lemma requests_no_query (evs : list event) :
  (forall site b, Query site b ∉ evs) -> requests evs = [].
Proof.
  induction evs as [|ev evs IH]; intros H; [done|].
  assert (requests evs = []) as Hr.
  { apply IH. intros site b Hin. apply (H site b). by right. }
  destruct ev as [m|site b|p|p c]; simpl; try apply Hr.
  destruct (H site b). left.
Qed.

Lemma authentication_events_printed (Credentials : Type)
    (from_service_account_file : string -> list string -> result Credentials)
    (build : string -> string -> Credentials -> result Resource)
    (file : string) (scopes : list string) (ev : event) :
  ev ∈ authentication_events Credentials from_service_account_file build
         file scopes ->
  ev = Printed (MsgKeyFileNotFound file) \/ ev = Printed MsgCheckPath
  \/ exists e, ev = Printed (MsgAuthError e).
Proof.
  unfold authentication_events, authentication_failed. intros Hev.
  destruct (from_service_account_file _ _) as [c|e];
    [destruct (build _ _ c) as [r|e]|];
    try destruct (isinstance e _);
    repeat (apply elem_of_cons in Hev as [->|Hev]; [eauto|]);
    by apply elem_of_nil in Hev.
Qed.

(** One report, with an initialised handle: the request of the report's
    list. *)
Lemma run_report_requests (io_fault : string -> option exn) (args : Args)
    (self : SearchConsoleAPI) (svc : Resource) (name : string) (l : loc)
    (w : world) (v : list string) :
  service self = Some svc ->
  heap w !! l = Some v ->
  requests (out (run_report io_fault args self (name, l) w))
  = [(property args,
      mkWire (start args) (end_ args) (dimensions_sent v) (limit args) 0)].
Proof.
  intros Hsvc Hl.
  destruct (run_report_run io_fault args self name l w) as (df & Hdf & ->).
  cbn [out].
  set (w1 := mkWorld (dirs w) (files w)
               (heap w ++ [default [] (heap w !! l)])) in *.
  assert (Hl1 : heap w1 !! length (heap w) = Some v).
  { subst w1. cbn [heap]. rewrite Hl. by apply list_lookup_middle. }
  rewrite (execute_request_run self svc) by done.
  destruct (dimensions_at_allocated _ _ _ Hl1) as [-> _].
  cbn [out final].
  change (Printed ?m :: ?a ++ ?b) with ([Printed m] ++ a ++ b).
  rewrite !requests_app.
  change (requests [Printed ?m]) with (@nil (string * wire_request)).
  rewrite (requests_no_query (out _)).
  2:{ destruct (negb (df_empty df)).
      - apply save_daily_csvs_frame.
      - by intros site b ?%list_elem_of_singleton. }
  rewrite app_nil_r. cbn [app].
  change (requests (Query ?s ?b :: ?evs)) with ((s, b) :: requests evs).
  rewrite requests_no_query; [done|].
  intros site b Hin. by apply answer_of_prints in Hin as [m ?].
Qed.

Lemma run_reports_requests (io_fault : string -> option exn) (args : Args)
    (self : SearchConsoleAPI) (svc : Resource)
    (defs : list (string * list string)) (n : nat) (w : world) :
  service self = Some svc ->
  (forall i def, defs !! i = Some def -> heap w !! (n + i)%nat = Some def.2) ->
  requests (out (for_each (report_items n defs)
                   (run_report io_fault args self) w))
  = report_request args <$> defs.
Proof.
  intros Hsvc. revert n w.
  induction defs as [|[name dims] defs IH]; intros n w Hheap; [done|].
  cbn [report_items]. rewrite for_each_cons, bind_run.
  destruct (run_report_frame io_fault args self (name, n) w)
    as (-> & Hlen & Hkeep & _).
  cbn [out]. rewrite requests_app, fmap_cons.
  change (report_request args (name, dims) :: ?t)
    with ([report_request args (name, dims)] ++ t).
  f_equal.
  - apply (run_report_requests io_fault args self svc name n w dims); [done|].
    rewrite <- (Nat.add_0_r n). by apply (Hheap 0%nat (name, dims)).
  - apply IH. intros i def Hi.
    assert (Hold : heap w !! (S n + i)%nat = Some def.2).
    { replace (S n + i)%nat with (n + S i)%nat by lia. by apply Hheap. }
    rewrite Hkeep; [done|]. by apply lookup_lt_Some in Hold.
Qed.

(** X10.  When the credential loader or the service builder raises, with
    whatever exception, [main] prints the message of the failure and the
    exit message and ends: no request, no directory, no file. *)
Theorem main_stops_on_authentication_failure
    (Credentials : Type)
    (from_service_account_file : string -> list string -> result Credentials)
    (build : string -> string -> Credentials -> result Resource)
    (io_fault : string -> option exn) (args : Args) (w : world) (e : exn) :
  from_service_account_file (sa_file args) SCOPES = Raise e
  \/ (exists c, from_service_account_file (sa_file args) SCOPES = Ret c
                /\ build "searchconsole" "v1" c = Raise e) ->
  let o := main Credentials from_service_account_file build io_fault args w in
  res o = Ret tt
  /\ out o
     = (if isinstance e CFileNotFoundError
        then [Printed (MsgKeyFileNotFound (sa_file args)); Printed MsgCheckPath]
        else [Printed (MsgAuthError e)])
       ++ [Printed MsgFailedInit]
  /\ files (final o) = files w
  /\ dirs (final o) = dirs w.
Proof.
  intros Hfail o. subst o. rewrite main_run.
  unfold handle_of, authentication_events, authentication_failed.
  destruct Hfail as [->|(c & -> & ->)]; done.
Qed.

(** X11.  When authentication succeeds, [main] returns and has sent
    exactly one request per report definition, in the order of the
    definitions, whatever the service answers and whatever the operating
    system refuses: each for the property, with the start and end dates and
    the row limit of the command line, the dimensions of the definition
    (with [date] added when they lack it) and start row 0. *)
Theorem main_sends_one_request_per_report
    (Credentials : Type)
    (from_service_account_file : string -> list string -> result Credentials)
    (build : string -> string -> Credentials -> result Resource)
    (io_fault : string -> option exn) (args : Args) (w : world)
    (c : Credentials) (svc : Resource) :
  from_service_account_file (sa_file args) SCOPES = Ret c ->
  build "searchconsole" "v1" c = Ret svc ->
  let o := main Credentials from_service_account_file build io_fault args w in
  res o = Ret tt
  /\ requests (out o)
     = (fun def =>
          (property args,
           mkWire (start args) (end_ args)
             (if bool_decide ("date" ∈ def.2) then def.2 else def.2 ++ ["date"])
             (limit args) 0)) <$> report_definitions.
Proof.
  intros Hc Hsvc o. subst o. rewrite main_run.
  unfold handle_of, authentication_events. rewrite Hc, Hsvc.
  cbn [res out app]. split.
  - apply for_each_returns. intros item w'. apply run_report_frame.
  - apply (run_reports_requests io_fault args _ svc); [done|].
    intros i def Hi. cbn [heap]. rewrite lookup_app_r by lia.
    replace (length (heap w) + i - length (heap w))%nat with i by lia.
    by rewrite list_lookup_fmap, Hi.
Qed.

Lemma execute_request_date_column (self : SearchConsoleAPI)
    (pu sd ed : string) (l : loc) (rl : Z) (w : world) (v : list string)
    (df : DataFrame) :
  heap w !! l = Some v ->
  res (execute_request self pu sd ed l rl w) = Ret df ->
  df_empty df = false ->
  "date" ∈ columns df.
Proof.
  intros Hl Hres Hne. destruct (service self) as [svc|] eqn:Hsvc.
  2:{ rewrite execute_request_uninitialized in Hres by done.
      injection Hres as <-. done. }
  rewrite (execute_request_run self svc) in Hres by done.
  destruct (dimensions_at_allocated l (heap w) v Hl) as [Hdims _].
  rewrite Hdims in Hres. cbn [res] in Hres. injection Hres as Hres.
  unfold answer_of in Hres.
  destruct (searchanalytics_query svc pu _) as [[[rs|]]|e];
    cbn [rows fst] in Hres; try (subst df; done).
  destruct (reshape rs _) as [df'|e] eqn:Hr; cbn [fst] in Hres;
    [|subst df; done].
  subst df'. apply (reshape_columns_elem_of rs _ df "date" Hr).
  split; [|done]. right. unfold dimensions_sent.
  destruct (bool_decide ("date" ∈ v)) eqn:E.
  - by apply bool_decide_eq_true in E.
  - apply elem_of_app. right. by left.
Qed.

(** What [execute_request] prints is about the request. *)
Lemma execute_request_messages (self : SearchConsoleAPI) (pu sd ed : string)
    (l : loc) (rl : Z) (w : world) (ev : event) :
  ev ∈ out (execute_request self pu sd ed l rl w) ->
  (exists b, ev = Query pu b)
  \/ ev = Printed MsgNotInitialized
  \/ (exists dims, ev = Printed (MsgNoData dims sd ed))
  \/ exists e, ev = Printed (MsgHttpError e) \/ ev = Printed (MsgErrorContent e)
               \/ ev = Printed (MsgRequestError e).
Proof.
  destruct (service self) as [svc|] eqn:Hsvc.
  2:{ rewrite execute_request_uninitialized by done.
      intros ->%list_elem_of_singleton. auto. }
  rewrite (execute_request_run self svc) by done. cbn [out].
  intros [->|Hin]%elem_of_cons; [eauto|].
  assert (Hfailed : forall e, ev ∈ request_failed e ->
            exists e, ev = Printed (MsgHttpError e)
                      \/ ev = Printed (MsgErrorContent e)
                      \/ ev = Printed (MsgRequestError e)).
  { intros e H. unfold request_failed in H.
    destruct (isinstance e _);
      repeat (apply elem_of_cons in H as [->|H]; [eauto|]);
      by apply elem_of_nil in H. }
  unfold answer_of in Hin.
  destruct (searchanalytics_query svc pu _) as [[[rs|]]|e]; cbn [rows snd] in Hin.
  - destruct (reshape rs _) as [df|e]; cbn [snd] in Hin.
    + by apply elem_of_nil in Hin.
    + right. right. right. by apply (Hfailed e).
  - apply list_elem_of_singleton in Hin as ->. right. right. left. eauto.
  - right. right. right. by apply (Hfailed e).
Qed.

(** The effects of one report. *)
Lemma run_report_out (io_fault : string -> option exn) (args : Args)
    (self : SearchConsoleAPI) (name : string) (l : loc) (w : world)
    (ev : event) :
  ev ∈ out (run_report io_fault args self (name, l) w) ->
  match ev with
  | Printed (MsgNoDateColumn _) => False
  | Printed _ => True
  | Query site _ => site = property args
  | Makedirs p => p = os_path_join (output_dir args) name
  | ToCsv p _ =>
      exists d, p = daily_file name (output_dir args) (Datetime.strftime d)
  end.
Proof.
  destruct (run_report_run io_fault args self name l w) as (df & Hdf & ->).
  cbn [out].
  set (w1 := mkWorld (dirs w) (files w)
               (heap w ++ [default [] (heap w !! l)])) in *.
  assert (Hl1 : heap w1 !! length (heap w) = Some (default [] (heap w !! l))).
  { subst w1. cbn [heap]. by apply list_lookup_middle. }
  intros [->|[Hin|Hin]%elem_of_app]%elem_of_cons; [done| |].
  - apply execute_request_messages in Hin
      as [[b ->]|[->|[[dims ->]|[e [->|[->| ->]]]]]]; done.
  - destruct (df_empty df) eqn:Hempty; cbn [negb] in Hin.
    { by apply list_elem_of_singleton in Hin as ->. }
    assert (Hdate : "date" ∈ columns df).
    { by eapply execute_request_date_column. }
    rewrite save_daily_csvs_run in Hin by done. cbn [out] in Hin.
    apply elem_of_cons in Hin as [->|[Hin|Hin]%elem_of_app]; [done| |].
    + apply for_each_out_elem_of in Hin as ([s g] & w' & _ & Hin).
      apply save_group_out in Hin.
      destruct ev as [m|site b|p|p c].
      * by destruct m.
      * done.
      * by destruct Hin.
      * destruct Hin as (d & _ & -> & _). by exists d.
    + by apply list_elem_of_singleton in Hin as ->.
Qed.


(** ** Running the writer again *)

Lemma foldl_insert_twice {V : Type} (ws : list (string * V))
    (f : gmap string V) :
  foldl (fun f pc => <[pc.1 := pc.2]> f)
    (foldl (fun f pc => <[pc.1 := pc.2]> f) f ws) ws
  = foldl (fun f pc => <[pc.1 := pc.2]> f) f ws.
Proof.
  apply map_eq. intros p.
  destruct (decide (p ∈ ws.*1)) as [Hin|Hnot].
  - assert (Hlast : exists c, forall g : gmap string V,
              foldl (fun f pc => <[pc.1 := pc.2]> f) g ws !! p = Some c).
    { clear f. induction ws as [|[q c] ws IH] using rev_ind.
      - by apply elem_of_nil in Hin.
      - destruct (decide (p = q)) as [->|Hne].
        + exists c. intros g. rewrite foldl_snoc. apply lookup_insert_eq.
        + rewrite fmap_app in Hin. apply elem_of_app in Hin as [Hin|Hin].
          * destruct (IH Hin) as [c' Hc']. exists c'. intros g.
            rewrite foldl_snoc. cbn [fst snd].
            by rewrite lookup_insert_ne.
          * apply list_elem_of_singleton in Hin. by destruct Hne. }
    destruct Hlast as [c Hc]. by rewrite !Hc.
  - by rewrite !foldl_insert_notin.
Qed.

Lemma dirs_group_worlds (rt base : string) (gs : list (string * DataFrame))
    (w : world) :
  dirs (foldl (group_world rt base) w gs) = dirs w
  \/ dirs (foldl (group_world rt base) w gs)
     = {[os_path_join base rt]} ∪ dirs w.
Proof.
  revert w. induction gs as [|[s g] gs IH]; intros w; [by left|].
  cbn [foldl]. destruct (IH (group_world rt base w (s, g))) as [->| ->];
    unfold group_world; cbn [fst];
    destruct (Datetime.strptime s); cbn [dirs]; auto.
  right. by rewrite (assoc_L (∪)), (idemp_L (∪)).
Qed.

Lemma dirs_group_worlds_again (rt base : string)
    (gs : list (string * DataFrame)) (w : world) :
  dirs (foldl (group_world rt base) (foldl (group_world rt base) w gs) gs)
  = dirs (foldl (group_world rt base) w gs).
Proof.
  revert w. induction gs as [|[s g] gs IH]; intros w; [done|].
  cbn [foldl].
  set (step := group_world rt base).
  destruct (Datetime.strptime s) as [d|e] eqn:Es.
  2:{ assert (Hskip : forall w', step w' (s, g) = w').
      { intros w'. subst step. unfold group_world. cbn [fst]. by rewrite Es. }
      rewrite !Hskip. apply IH. }
  assert (Hdirs : forall w', dirs (step w' (s, g))
                             = {[os_path_join base rt]} ∪ dirs w').
  { intros w'. subst step. unfold group_world. cbn [fst]. by rewrite Es. }
  destruct (dirs_group_worlds rt base gs (step w (s, g))) as [E1|E1];
    destruct (dirs_group_worlds rt base gs
                (step (foldl step (step w (s, g)) gs) (s, g))) as [E2|E2];
    fold step in E1, E2; rewrite E2, Hdirs, E1, ?Hdirs;
    by rewrite ?(assoc_L (∪)), ?(idemp_L (∪)).
Qed.

Lemma heap_group_worlds (rt base : string) (gs : list (string * DataFrame))
    (w : world) :
  heap (foldl (group_world rt base) w gs) = heap w.
Proof.
  revert w. induction gs as [|[s g] gs IH]; intros w; [done|].
  cbn [foldl]. rewrite IH. unfold group_world. cbn [fst].
  by destruct (Datetime.strptime s).
Qed.

(** X13.  With an operating system that accepts the writes, running
    [save_daily_csvs] again on the same table changes nothing: the second
    run performs the same effects and leaves directories, files and heap as
    the first run left them (a file is written over, never added to). *)
Theorem save_daily_csvs_again
    (io_fault : string -> option exn) (df : DataFrame) (rt base : string)
    (w : world) :
  (forall p, io_fault p = None) ->
  flat_table df = true ->
  "date" ∈ columns df ->
  let o1 := save_daily_csvs io_fault df rt base w in
  let o2 := save_daily_csvs io_fault df rt base (final o1) in
  out o2 = out o1 /\ final o2 = final o1.
Proof.
  intros Hio _ Hdate o1 o2. subst o2 o1.
  rewrite !save_daily_csvs_run by done.
  rewrite !(for_each_save_group io_fault Hio). cbn [out final].
  split; [done|].
  set (w1 := foldl (group_world rt base) w (groups_of df)).
  assert (Hd : dirs (foldl (group_world rt base) w1 (groups_of df)) = dirs w1).
  { apply dirs_group_worlds_again. }
  assert (Hf : files (foldl (group_world rt base) w1 (groups_of df))
               = files w1).
  { subst w1. rewrite !files_group_worlds. apply foldl_insert_twice. }
  assert (Hh : heap (foldl (group_world rt base) w1 (groups_of df)) = heap w1).
  { apply heap_group_worlds. }
  clearbody w1.
  destruct (foldl (group_world rt base) w1 (groups_of df)) as [d2 f2 h2].
  destruct w1 as [d1 f1 h1]. cbn [dirs files heap] in *. by subst.
Qed.

(** ** The constructor *)

(** X14.  The constructor never raises and touches nothing: it returns an
    object with the file and the scopes it was given, whose service is a
    handle exactly when the credential loader and the service builder both
    return, and then the handle is what the builder returned and nothing is
    printed; otherwise the service is [None] and something is printed. *)
Theorem init_returns_an_object
    (Credentials : Type)
    (from_service_account_file : string -> list string -> result Credentials)
    (build : string -> string -> Credentials -> result Resource)
    (file : string) (scs : list string) (w : world) :
  let o := __init__ Credentials from_service_account_file build file scs w in
  exists self,
    res o = Ret self
    /\ final o = w
    /\ service_account_file self = file
    /\ scopes self = scs
    /\ (forall svc,
          service self = Some svc
          <-> exists c, from_service_account_file file scs = Ret c
                        /\ build "searchconsole" "v1" c = Ret svc)
    /\ (out o = [] <-> service self <> None)
    /\ (forall ev, ev ∈ out o -> exists m, ev = Printed m).
Proof.
  intros o. subst o. unfold __init__. rewrite bind_run, _authenticate_run.
  cbn [res final out]. eexists. split; [reflexivity|].
  cbn [service_account_file scopes service app].
  split; [done|]. split; [done|]. split; [done|].
  unfold handle_of, authentication_events, authentication_failed.
  destruct (from_service_account_file file scs) as [c|e] eqn:Ec.
  - destruct (build "searchconsole" "v1" c) as [r|e] eqn:Eb.
    + split; [|split].
      * intros svc. split.
        -- intros [= <-]. by exists c.
        -- intros (c' & [= <-] & Hb). congruence.
      * rewrite app_nil_r. done.
      * intros ev Hev. by apply elem_of_nil in Hev.
    + split; [|split].
      * intros svc. split; [done|]. intros (c' & [= <-] & Hb). congruence.
      * rewrite app_nil_r. split; [by destruct (isinstance e _)|done].
      * intros ev Hev. rewrite app_nil_r in Hev.
        destruct (isinstance e _);
          repeat (apply elem_of_cons in Hev as [->|Hev]; [by eexists|]);
          by apply elem_of_nil in Hev.
  - split; [|split].
    + intros svc. split; [done|]. intros (c' & [=] & _).
    + rewrite app_nil_r. split; [by destruct (isinstance e _)|done].
    + intros ev Hev. rewrite app_nil_r in Hev.
      destruct (isinstance e _);
        repeat (apply elem_of_cons in Hev as [->|Hev]; [by eexists|]);
        by apply elem_of_nil in Hev.
Qed.

(** ** The further properties on the sample inputs *)



Lemma same_day_twice_dates :
  filter (fun s => parses s = true) (date_values Sample.same_day_twice)
  = ["2024-01-05"; "2024-1-5"].
Proof. vm_compute. reflexivity. Qed.




Lemma execute_request_drops_misfit_answer_witness :
  let o := execute_request (Sample.client (Some Faults.misfitting))
             "sc-domain:example.com" "2024-01-01" "2024-01-02" 0%nat 25000
             (Sample.world_with ["query"]) in
  res o = Ret DataFrame_new
  /\ out o
     = [Query "sc-domain:example.com"
          (mkWire "2024-01-01" "2024-01-02" ["query"; "date"] 25000 0);
        Printed (MsgRequestError ValueError)].
Proof.
  apply (execute_request_drops_misfit_answer
           (Sample.client (Some Faults.misfitting)) Faults.misfitting
           "sc-domain:example.com" "2024-01-01" "2024-01-02" 0%nat 25000
           (Sample.world_with ["query"]) ["query"] Faults.three_keys).
  - reflexivity.
  - reflexivity.
  - reflexivity.
  - discriminate.
  - vm_compute. lia.
Defined.

Lemma execute_request_table_shape_witness :
  flat_table Sample.answered = true
  /\ "date" ∈ columns Sample.answered
  /\ ("keys" ∉ columns Sample.answered).
Proof.
  destruct (execute_request_table_shape
              (Sample.client (Some Sample.answering))
              "sc-domain:example.com" "2024-01-01" "2024-01-02" 0%nat 25000
              (Sample.world_with ["query"]) ["query"] Sample.answered)
    as [Hflat Hrows].
  - reflexivity.
  - vm_compute. reflexivity.
  - destruct Hrows as (_ & Hdate & Hkeys & _); [reflexivity|].
    split; [exact Hflat|]. split; [exact Hdate | exact Hkeys].
Defined.

Lemma execute_request_append_is_idempotent_witness :
  let o1 := execute_request (Sample.client (Some Sample.answering))
              "sc-domain:example.com" "2024-01-01" "2024-01-02" 0%nat 25000
              (Sample.world_with ["query"]) in
  let o2 := execute_request (Sample.client (Some Sample.answering))
              "sc-domain:example.com" "2024-02-01" "2024-02-02" 0%nat 10
              (final o1) in
  heap (final o1) !! 0%nat = Some (dimensions_sent ["query"])
  /\ heap (final o2) = heap (final o1).
Proof.
  destruct (execute_request_append_is_idempotent
              (Sample.client (Some Sample.answering)) Sample.answering
              "sc-domain:example.com" "2024-01-01" "2024-01-02"
              "sc-domain:example.com" "2024-02-01" "2024-02-02" 0%nat 25000 10
              (Sample.world_with ["query"]) ["query"])
    as (Hfirst & _ & Hsecond & _).
  - reflexivity.
  - reflexivity.
  - split; [exact Hfirst | exact Hsecond].
Defined.

Lemma main_stops_on_authentication_failure_witness :
  out (main unit Faults.key_malformed (Sample.build_with Sample.answering)
         Sample.no_fault (Sample.args 25000) Sample.world0)
  = [Printed (MsgAuthError ValueError); Printed MsgFailedInit].
Proof.
  destruct (main_stops_on_authentication_failure unit Faults.key_malformed
              (Sample.build_with Sample.answering) Sample.no_fault
              (Sample.args 25000) Sample.world0 ValueError)
    as (_ & Hout & _).
  - left. reflexivity.
  - exact Hout.
Defined.

Lemma main_sends_one_request_per_report_witness :
  requests (out (main unit Sample.key_found (Sample.build_with Sample.silent)
                   Sample.no_fault (Sample.args 25000) Sample.world0))
  = (fun def =>
       ("sc-domain:example.com",
        mkWire "2024-01-01" "2024-01-02" (def.2 ++ ["date"]) 25000 0))
    <$> report_definitions.
Proof.
  destruct (main_sends_one_request_per_report unit Sample.key_found
              (Sample.build_with Sample.silent) Sample.no_fault
              (Sample.args 25000) Sample.world0 tt Sample.silent)
    as [_ Hrequests].
  - reflexivity.
  - reflexivity.
  - exact Hrequests.
Defined.


Lemma save_daily_csvs_again_witness :
  let o1 := save_daily_csvs Sample.no_fault Sample.two_days "query" "out"
              Sample.world0 in
  let o2 := save_daily_csvs Sample.no_fault Sample.two_days "query" "out"
              (final o1) in
  out o2 = out o1 /\ final o2 = final o1.
Proof.
  apply (save_daily_csvs_again Sample.no_fault Sample.two_days "query" "out"
           Sample.world0).
  - reflexivity.
  - reflexivity.
  - by_computation.
Defined.
